(** * gomb: DDL statement builders, embedded from the Go sources

    The package [gomb] (directory [internal/]) builds CREATE TABLE, ALTER
    TABLE, DROP TABLE and index statements from in-memory descriptions.
    Every entity has a [ToSQL] method returning the statement text and
    either one [error] (Column, index family, DropTable) or a slice of
    errors (Table, AlterTable).

    Conventions of the embedding:
    - a Go [string] is a [string]; [+] on strings and [WriteString] on a
      [strings.Builder] are [+:+];
    - a Go [int] is a [Z]: the package only compares and prints integers,
      it performs no arithmetic on them, so no wrap-around can occur;
    - an [error] is its message; a nil [error] is [None], a [[]error] is a
      list (nil and empty slices are both [[]]);
    - [map[string]any] is a [gmap string any];
    - a pointer that the package's own constructors leave nil
      ([Column.UpdateOptions]) or that a method tests against nil is an
      [option]; dereferencing nil panics, which is the [Panics] outcome;
      the other pointers ([*Column] inside a table or an operation) are
      modelled by the value they point to. *)

From Stdlib Require Import ZArith String Ascii List DecimalString Lia.
From stdpp Require Import base gmap strings list.

Open Scope Z_scope.

(** ** The part of Go's runtime and standard library the package uses *)

Module Go.

(** [error]: the message carried by an [errors.New] / [fmt.Errorf] value. *)
Definition error := string.

(** Outcome of a call that may dereference a nil pointer. *)
Inductive result (A : Type) : Type :=
| Returns (a : A)
| Panics.
Arguments Returns {A} a.
Arguments Panics {A}.

Definition bind {A B} (r : result A) (k : A -> result B) : result B :=
  match r with
  | Returns a => k a
  | Panics => Panics
  end.

(** [p.f] on a pointer [p]: nil panics. *)
Definition deref {A} (p : option A) : result A :=
  match p with
  | Some a => Returns a
  | None => Panics
  end.

(** [s != ""] *)
Definition nonEmpty (s : string) : bool := negb (String.eqb s "").

(** [strings.HasPrefix] *)
Fixpoint HasPrefix (s prefix : string) : bool :=
  match prefix, s with
  | EmptyString, _ => true
  | String p prefix', String c s' => Ascii.eqb p c && HasPrefix s' prefix'
  | String _ _, EmptyString => false
  end.

(** [strings.Contains] *)
Fixpoint Contains (s substr : string) : bool :=
  HasPrefix s substr ||
  match s with
  | EmptyString => false
  | String _ s' => Contains s' substr
  end.

(** [strings.Join] *)
Fixpoint Join (elems : list string) (sep : string) : string :=
  match elems with
  | [] => ""
  | [e] => e
  | e :: rest => e +:+ sep +:+ Join rest sep
  end.

(** The verb [%d] of [fmt.Sprintf] on an [int]. *)
Definition fmt_d (n : Z) : string := NilZero.string_of_int (Z.to_int n).

(** The dynamic values stored in an attribute map ([any]); the three
    kinds below are the ones whose [%v] rendering is fixed by the
    language alone. *)
Inductive any : Type :=
| AnyString (s : string)
| AnyInt (n : Z)
| AnyBool (b : bool).

(** The verb [%v] of [fmt.Sprintf]. *)
Definition fmt_v (v : any) : string :=
  match v with
  | AnyString s => s
  | AnyInt n => fmt_d n
  | AnyBool true => "true"
  | AnyBool false => "false"
  end.

(** The order in which one [for k, v := range m] statement visits the
    entries of a map. The language leaves it unspecified and lets it
    differ from one loop to the next, so every loop receives its own
    enumeration; the only guarantee is [RangeOrder]: each entry is
    visited exactly once. *)
Definition MapOrder := gmap string any -> list (string * any).

Definition RangeOrder (ord : MapOrder) : Prop :=
  forall m, ord m ≡ₚ map_to_list m.

End Go.

Notation "x <- r ;; k" := (Go.bind r (fun x => k))
  (at level 100, r at next level, right associativity).

(** [strconv.ParseFloat(s, 64)] reports no error on [s]. The parser belongs
    to Go's standard library, not to this package; [Column.ToSQL] only
    asks it whether a default value reads as a number, so the development
    takes the answer as a parameter. *)
Class Strconv := { ParseFloat_ok : string -> bool }.

(** ** Shared vocabulary (the package's constants) *)

Module Types.

(** [type DataType string] *)
Definition DataType := string.

Definition SerialType : DataType := "serial".
Definition StringType : DataType := "string".
Definition IntegerType : DataType := "integer".
Definition DecimalType : DataType := "decimal".
Definition BooleanType : DataType := "boolean".
Definition DateType : DataType := "date".
Definition DateTimeType : DataType := "datetime".

(** [type AlterTableOperation int], with its four [iota] constants. *)
Inductive AlterTableOperation : Type :=
| AddColumnOp
| DropColumnOp
| RenameColumnOp
| AlterColumnTypeOp.

(** [type DefaultValue string], with the package's default constants. *)
Definition DefaultValue := string.

Definition DefaultNull : DefaultValue := "NULL".
Definition DefaultTrue : DefaultValue := "TRUE".
Definition DefaultFalse : DefaultValue := "FALSE".
Definition DefaultCurrentTimestamp : DefaultValue := "CURRENT_TIMESTAMP".
Definition DefaultCurrentDate : DefaultValue := "CURRENT_DATE".
Definition DefaultCurrentTime : DefaultValue := "CURRENT_TIME".
Definition DefaultLocalTime : DefaultValue := "LOCALTIME".
Definition DefaultLocalTimestamp : DefaultValue := "LOCALTIMESTAMP".

End Types.
Import Types.

(** ** column.go *)

Module ColumnUpdate.

(** [ColumnUpdate] holds modification details for a column. *)
Record t : Type := mk {
  Name : string;
  DataType : DataType
}.

End ColumnUpdate.

Module Column.

Record t : Type := mk {
  Name : string;
  DataType : DataType;
  Length : Z;
  Precision : Z;
  Scale : Z;
  PrimaryKey : bool;
  AutoNumber : bool;
  AutoNumberStart : Z;
  AutoNumberPrefix : string;
  NotNull : bool;
  Unique : bool;
  Default : string;
  Check : string;
  References : string;
  Generated : string;
  Collation : string;
  Comment : string;
  Storage : string;
  Compression : string;
  IdentityStart : Z;
  IdentityInc : Z;
  Attributes : gmap string Go.any;
  UpdateOptions : option ColumnUpdate.t
}.

(** [NewColumn]: every field but the name keeps its zero value. *)
Definition NewColumn (name : string) : t :=
  mk name "" 0 0 0 false false 0 "" false false "" "" "" "" "" "" "" "" 0 0 ∅ None.

Definition SetUpdateOptions (c : t) (u : option ColumnUpdate.t) : t :=
  let 'mk n dt ln pr sc pk an ans anp nn un df ck rf gn co cm st cp ids idi ats _ := c in
  mk n dt ln pr sc pk an ans anp nn un df ck rf gn co cm st cp ids idi ats u.

(** [SetNewName] allocates the update descriptor when it is nil. *)
Definition SetNewName (c : t) (newName : string) : t :=
  let u := match UpdateOptions c with
           | None => ColumnUpdate.mk "" ""
           | Some u => u
           end in
  SetUpdateOptions c (Some (ColumnUpdate.mk newName (ColumnUpdate.DataType u))).

(** [SetNewDataType] allocates the update descriptor when it is nil. *)
Definition SetNewDataType (c : t) (newDataType : Types.DataType) : t :=
  let u := match UpdateOptions c with
           | None => ColumnUpdate.mk "" ""
           | Some u => u
           end in
  SetUpdateOptions c (Some (ColumnUpdate.mk (ColumnUpdate.Name u) newDataType)).

Definition SetName (c : t) (name : string) : t :=
  let 'mk _ dt ln pr sc pk an ans anp nn un df ck rf gn co cm st cp ids idi ats uo := c in
  mk name dt ln pr sc pk an ans anp nn un df ck rf gn co cm st cp ids idi ats uo.

Definition SetDataType (c : t) (dataType : Types.DataType) : t :=
  let 'mk n _ ln pr sc pk an ans anp nn un df ck rf gn co cm st cp ids idi ats uo := c in
  mk n dataType ln pr sc pk an ans anp nn un df ck rf gn co cm st cp ids idi ats uo.

Definition SetLength (c : t) (length : Z) : t :=
  let 'mk n dt _ pr sc pk an ans anp nn un df ck rf gn co cm st cp ids idi ats uo := c in
  mk n dt length pr sc pk an ans anp nn un df ck rf gn co cm st cp ids idi ats uo.

Definition SetPrecision (c : t) (precision : Z) : t :=
  let 'mk n dt ln _ sc pk an ans anp nn un df ck rf gn co cm st cp ids idi ats uo := c in
  mk n dt ln precision sc pk an ans anp nn un df ck rf gn co cm st cp ids idi ats uo.

Definition SetScale (c : t) (scale : Z) : t :=
  let 'mk n dt ln pr _ pk an ans anp nn un df ck rf gn co cm st cp ids idi ats uo := c in
  mk n dt ln pr scale pk an ans anp nn un df ck rf gn co cm st cp ids idi ats uo.

Definition SetPrimaryKey (c : t) : t :=
  let 'mk n dt ln pr sc _ an ans anp nn un df ck rf gn co cm st cp ids idi ats uo := c in
  mk n dt ln pr sc true an ans anp nn un df ck rf gn co cm st cp ids idi ats uo.

Definition SetNotNull (c : t) : t :=
  let 'mk n dt ln pr sc pk an ans anp _ un df ck rf gn co cm st cp ids idi ats uo := c in
  mk n dt ln pr sc pk an ans anp true un df ck rf gn co cm st cp ids idi ats uo.

(** [SetDefault] on a [string] argument (the other dynamic types are
    printed first and stored the same way). *)
Definition SetDefault (c : t) (defaultValue : string) : t :=
  let 'mk n dt ln pr sc pk an ans anp nn un _ ck rf gn co cm st cp ids idi ats uo := c in
  mk n dt ln pr sc pk an ans anp nn un defaultValue ck rf gn co cm st cp ids idi ats uo.

Definition SetAttributes (c : t) (attributes : gmap string Go.any) : t :=
  let 'mk n dt ln pr sc pk an ans anp nn un df ck rf gn co cm st cp ids idi _ uo := c in
  mk n dt ln pr sc pk an ans anp nn un df ck rf gn co cm st cp ids idi attributes uo.

(** [SetDefault] on any argument: the type switch stores a [string] as it
    is, prints numbers with [%v] and booleans with [%t], and turns nil
    (here [None]) into the text NULL. *)
Definition SetDefaultAny (c : t) (defaultValue : option Go.any) : t :=
  SetDefault c
    match defaultValue with
    | Some (Go.AnyString v) => v
    | Some (Go.AnyInt v) => Go.fmt_d v
    | Some (Go.AnyBool v) => Go.fmt_v (Go.AnyBool v)
    | None => "NULL"
    end.

Definition SetUnique (c : t) : t :=
  let 'mk n dt ln pr sc pk an ans anp nn _ df ck rf gn co cm st cp ids idi ats uo := c in
  mk n dt ln pr sc pk an ans anp nn true df ck rf gn co cm st cp ids idi ats uo.

Definition SetAutoNumber (c : t) : t :=
  let 'mk n dt ln pr sc pk _ ans anp nn un df ck rf gn co cm st cp ids idi ats uo := c in
  mk n dt ln pr sc pk true ans anp nn un df ck rf gn co cm st cp ids idi ats uo.

Definition SetAutoNumberWithPrefix (c : t) (startNumber : Z) (prefix : string) : t :=
  let 'mk n dt ln pr sc pk _ _ _ nn un df ck rf gn co cm st cp ids idi ats uo := c in
  mk n dt ln pr sc pk true startNumber prefix nn un df ck rf gn co cm st cp ids idi ats uo.

Definition SetCheck (c : t) (check : string) : t :=
  let 'mk n dt ln pr sc pk an ans anp nn un df _ rf gn co cm st cp ids idi ats uo := c in
  mk n dt ln pr sc pk an ans anp nn un df check rf gn co cm st cp ids idi ats uo.

Definition SetReferencesText (c : t) (references : string) : t :=
  let 'mk n dt ln pr sc pk an ans anp nn un df ck _ gn co cm st cp ids idi ats uo := c in
  mk n dt ln pr sc pk an ans anp nn un df ck references gn co cm st cp ids idi ats uo.

(** [SetReferences] stores [fmt.Sprintf("%s(%s)", table, column)]. *)
Definition SetReferences (c : t) (table column : string) : t :=
  SetReferencesText c (table +:+ "(" +:+ column +:+ ")").

(** [SetReferencesOnDeleteCascade] stores
    [fmt.Sprintf("%s(%s) ON DELETE CASCADE", table, column)]. *)
Definition SetReferencesOnDeleteCascade (c : t) (table column : string) : t :=
  SetReferencesText c (table +:+ "(" +:+ column +:+ ") ON DELETE CASCADE").

Definition SetGenerated (c : t) (generated : string) : t :=
  let 'mk n dt ln pr sc pk an ans anp nn un df ck rf _ co cm st cp ids idi ats uo := c in
  mk n dt ln pr sc pk an ans anp nn un df ck rf generated co cm st cp ids idi ats uo.

Definition SetCollation (c : t) (collation : string) : t :=
  let 'mk n dt ln pr sc pk an ans anp nn un df ck rf gn _ cm st cp ids idi ats uo := c in
  mk n dt ln pr sc pk an ans anp nn un df ck rf gn collation cm st cp ids idi ats uo.

Definition SetComment (c : t) (comment : string) : t :=
  let 'mk n dt ln pr sc pk an ans anp nn un df ck rf gn co _ st cp ids idi ats uo := c in
  mk n dt ln pr sc pk an ans anp nn un df ck rf gn co comment st cp ids idi ats uo.

Definition SetStorage (c : t) (storage : string) : t :=
  let 'mk n dt ln pr sc pk an ans anp nn un df ck rf gn co cm _ cp ids idi ats uo := c in
  mk n dt ln pr sc pk an ans anp nn un df ck rf gn co cm storage cp ids idi ats uo.

Definition SetCompression (c : t) (compression : string) : t :=
  let 'mk n dt ln pr sc pk an ans anp nn un df ck rf gn co cm st _ ids idi ats uo := c in
  mk n dt ln pr sc pk an ans anp nn un df ck rf gn co cm st compression ids idi ats uo.

Definition SetIdentityStart (c : t) (identityStart : Z) : t :=
  let 'mk n dt ln pr sc pk an ans anp nn un df ck rf gn co cm st cp _ idi ats uo := c in
  mk n dt ln pr sc pk an ans anp nn un df ck rf gn co cm st cp identityStart idi ats uo.

Definition SetIdentityIncrement (c : t) (identityInc : Z) : t :=
  let 'mk n dt ln pr sc pk an ans anp nn un df ck rf gn co cm st cp ids _ ats uo := c in
  mk n dt ln pr sc pk an ans anp nn un df ck rf gn co cm st cp ids identityInc ats uo.

(** [validDataTypes]: the map consulted by [Validate]. *)
Definition validDataTypes : gmap Types.DataType bool :=
  <[SerialType := true]> (<[StringType := true]> (<[IntegerType := true]>
  (<[DecimalType := true]> (<[BooleanType := true]> (<[DateType := true]>
  (<[DateTimeType := true]> ∅)))))).

(** [Validate]: the first failing rule returns its error. A key missing
    from a Go map reads as the zero value [false]. *)
Definition Validate (col : t) : option Go.error :=
  if negb (default false (validDataTypes !! DataType col)) then
    Some ("invalid data type: " +:+ DataType col)
  else if AutoNumber col && (AutoNumberStart col <? 0) then
    Some "auto-number start must be greater or equal than 0"
  else if NotNull col && Go.nonEmpty (Default col) then
    Some "column cannot be both NOT NULL and have a DEFAULT value"
  else if (0 <? IdentityStart col) && (IdentityInc col <=? 0) then
    Some "identity increment must be greater than 0"
  else if Go.nonEmpty (Check col) && negb (Go.Contains (Check col) "(") then
    Some "check constraint must have an expression in parentheses"
  else if Go.nonEmpty (References col) && negb (Go.Contains (References col) "(") then
    Some "foreign key references must be in the format 'table(column)'"
  else None.

(** [ToDataTypeString]: the [switch] on the data type, with its
    [default] branch. *)
Definition ToDataTypeString (col : t) (data : Types.DataType) : string :=
  if String.eqb data SerialType then "SERIAL"
  else if String.eqb data StringType then
    if 0 <? Length col then "VARCHAR(" +:+ Go.fmt_d (Length col) +:+ ")"
    else "VARCHAR"
  else if String.eqb data IntegerType then "INTEGER"
  else if String.eqb data DecimalType then
    if (0 <? Precision col) && (0 <? Scale col) then
      "DECIMAL(" +:+ Go.fmt_d (Precision col) +:+ "," +:+ Go.fmt_d (Scale col) +:+ ")"
    else if (0 <? Precision col) && (Scale col =? 0) then
      "DECIMAL(" +:+ Go.fmt_d (Precision col) +:+ ")"
    else "DECIMAL"
  else if String.eqb data BooleanType then "BOOLEAN"
  else if String.eqb data DateType then "DATE"
  else if String.eqb data DateTimeType then "TIMESTAMP"
  else "VARCHAR".

Definition ToDataType (col : t) : string :=
  ToDataTypeString col (DataType col).

(** [ToNewDataType] reads through [UpdateOptions] without a nil test. *)
Definition ToNewDataType (col : t) : Go.result string :=
  u <- Go.deref (UpdateOptions col) ;;
  Go.Returns (ToDataTypeString col (ColumnUpdate.DataType u)).

(** [IsValidDataType] *)
Definition IsValidDataType (dataType : Types.DataType) : bool :=
  String.eqb dataType SerialType || String.eqb dataType StringType ||
  String.eqb dataType IntegerType || String.eqb dataType DecimalType ||
  String.eqb dataType BooleanType || String.eqb dataType DateType ||
  String.eqb dataType DateTimeType.

Section WithStrconv.
Context {strconv : Strconv}.

(** The quoting decision of the default clause: [needsQuotes] starts
    [true] and three successive tests may clear it. *)
Definition needsQuotes (d : string) : bool :=
  let needs := true in
  let needs :=
    if String.eqb d "CURRENT_TIMESTAMP" || String.eqb d "CURRENT_DATE" ||
       String.eqb d "CURRENT_TIME" || String.eqb d "LOCAL_TIME" ||
       String.eqb d "LOCAL_TIMESTAMP" || String.eqb d "TRUE" ||
       String.eqb d "FALSE" || String.eqb d "NULL"
    then false else needs in
  let needs := if ParseFloat_ok d then false else needs in
  let needs := if String.eqb d "true" || String.eqb d "false" then false else needs in
  needs.

(** The writes [ToSQL] makes to its [strings.Builder] before the loop over
    the attribute map (column.go, lines 224 to 327). *)
Definition writeClauses (c : t) : string :=
  let builder := "" in
  let builder := builder +:+ Name c in
  let builder := builder +:+ " " in
  let builder :=
    if Go.nonEmpty (DataType c) then builder +:+ ToDataTypeString c (DataType c)
    else builder in
  let builder := if PrimaryKey c then builder +:+ " PRIMARY KEY" else builder in
  let builder :=
    if AutoNumber c then
      let builder := builder +:+ " AUTOINCREMENT" in
      let builder :=
        if 0 <? AutoNumberStart c
        then builder +:+ (" START WITH " +:+ Go.fmt_d (AutoNumberStart c))
        else builder in
      if Go.nonEmpty (AutoNumberPrefix c)
      then builder +:+ (" PREFIX '" +:+ AutoNumberPrefix c +:+ "'")
      else builder
    else builder in
  let builder := if NotNull c then builder +:+ " NOT NULL" else builder in
  let builder := if Unique c then builder +:+ " UNIQUE" else builder in
  let builder :=
    if Go.nonEmpty (Default c) then
      if needsQuotes (Default c)
      then builder +:+ (" DEFAULT '" +:+ Default c +:+ "'")
      else builder +:+ (" DEFAULT " +:+ Default c)
    else builder in
  let builder :=
    if Go.nonEmpty (Check c) then builder +:+ (" CHECK " +:+ Check c) else builder in
  let builder :=
    if Go.nonEmpty (References c)
    then builder +:+ (" REFERENCES " +:+ References c) else builder in
  let builder :=
    if Go.nonEmpty (Generated c)
    then builder +:+ (" GENERATED ALWAYS AS (" +:+ Generated c +:+ ")") else builder in
  let builder :=
    if Go.nonEmpty (Collation c)
    then builder +:+ (" COLLATE " +:+ Collation c) else builder in
  let builder :=
    if Go.nonEmpty (Comment c)
    then builder +:+ (" COMMENT '" +:+ Comment c +:+ "'") else builder in
  let builder :=
    if Go.nonEmpty (Storage c)
    then builder +:+ (" STORAGE " +:+ Storage c) else builder in
  let builder :=
    if Go.nonEmpty (Compression c)
    then builder +:+ (" COMPRESSION " +:+ Compression c) else builder in
  let builder :=
    if (0 <? IdentityStart c) && (0 <? IdentityInc c)
    then builder +:+ (" IDENTITY (" +:+ Go.fmt_d (IdentityStart c) +:+ ","
                      +:+ Go.fmt_d (IdentityInc c) +:+ ")")
    else builder in
  builder.

(** One iteration of [for key, value := range c.Attributes]. *)
Definition writeAttribute (builder : string) (kv : string * Go.any) : string :=
  builder +:+ (" " +:+ kv.1 +:+ " " +:+ Go.fmt_v kv.2).

(** [ToSQL]: validation first, then the clauses, then the attribute map in
    the order [ord] in which this call's [range] loop visits it. *)
Definition ToSQL (ord : Go.MapOrder) (c : t) : string * option Go.error :=
  match Validate c with
  | Some err => ("", Some err)
  | None =>
      let builder := writeClauses c in
      let builder := fold_left writeAttribute (ord (Attributes c)) builder in
      (builder, None)
  end.

End WithStrconv.

End Column.

(** ** create_table.go *)

Module Table.

Record t : Type := mk {
  Name : string;
  Label : string;
  Columns : list Column.t;
  Attributes : gmap string Go.any;
  Comment : string
}.

Definition NewTable (name : string) : t := mk name "" [] ∅ "".

Definition AddColumn (tb : t) (column : Column.t) : t :=
  mk (Name tb) (Label tb) (Columns tb ++ [column]) (Attributes tb) (Comment tb).

Definition SetComment (tb : t) (comment : string) : t :=
  mk (Name tb) (Label tb) (Columns tb) (Attributes tb) comment.

(** [Validate] *)
Definition Validate (tb : t) : list Go.error :=
  let errors : list Go.error := [] in
  if String.eqb (Name tb) "" then errors ++ ["table name cannot be empty"]
  else errors.

Section WithStrconv.
Context {strconv : Strconv}.

(** The loop [for _, col := range t.Columns] of [ToSQL], started at the
    column of index [i]: [ords i] is the order in which the [ToSQL] call
    on that column visits its attribute map. A failing column adds its
    error and is skipped ([continue]). *)
Fixpoint columnsLoop (ords : nat -> Go.MapOrder) (i : nat) (cols : list Column.t)
    (columnDefs : list string) (errors : list Go.error)
    : list string * list Go.error :=
  match cols with
  | [] => (columnDefs, errors)
  | col :: rest =>
      match Column.ToSQL (ords i) col with
      | (_, Some err) => columnsLoop ords (S i) rest columnDefs (errors ++ [err])
      | (colSQL, None) => columnsLoop ords (S i) rest (columnDefs ++ [colSQL]) errors
      end
  end.

(** [ToSQL] *)
Definition ToSQL (ords : nat -> Go.MapOrder) (tb : t) : string * list Go.error :=
  let def : list string := [] in
  let errors : list Go.error := [] in
  if String.eqb (Name tb) "" then ("", errors ++ ["table name cannot be empty"])
  else
    let def := def ++ ["CREATE TABLE " +:+ Name tb] in
    let '(columnDefs, errors) := columnsLoop ords 0 (Columns tb) [] errors in
    if (length columnDefs =? 0)%nat then
      ("", errors ++ ["no valid columns defined for table " +:+ Name tb])
    else
      let def := def ++ ["(" +:+ Go.Join columnDefs ", " +:+ ")"] in
      let def :=
        if Go.nonEmpty (Comment tb)
        then def ++ ["COMMENT ON TABLE " +:+ Name tb +:+ " IS '" +:+ Comment tb +:+ "'"]
        else def in
      if (0 <? length errors)%nat then ("", errors)
      else (Go.Join def " ", []).

End WithStrconv.

End Table.

(** ** alter_table.go *)

Module ColumnOperation.

Record t : Type := mk {
  Operation : AlterTableOperation;
  Column : Column.t
}.

End ColumnOperation.

Module AlterTable.

Record t : Type := mk {
  TableName : string;
  Operations : list ColumnOperation.t;
  Comment : string
}.

Definition NewAlterTable (name : string) : t := mk name [] "".

Definition appendOperation (a : t) (op : AlterTableOperation) (column : Column.t) : t :=
  mk (TableName a) (Operations a ++ [ColumnOperation.mk op column]) (Comment a).

Definition SetComment (a : t) (comment : string) : t :=
  mk (TableName a) (Operations a) comment.

(** [AddColumn]: a nil column is ignored. *)
Definition AddColumn (a : t) (column : option Column.t) : t :=
  match column with
  | Some c => appendOperation a AddColumnOp c
  | None => a
  end.

(** [DropColumn]: a nil column is ignored. *)
Definition DropColumn (a : t) (column : option Column.t) : t :=
  match column with
  | Some c => appendOperation a DropColumnOp c
  | None => a
  end.

(** [AlterColumn]: a nil column is ignored; otherwise the method reads
    [column.UpdateOptions.Name] (and then [.DataType]) with no nil test on
    [UpdateOptions]. *)
Definition AlterColumn (a : t) (column : option Column.t) : Go.result t :=
  match column with
  | Some c =>
      u <- Go.deref (Column.UpdateOptions c) ;;
      if Go.nonEmpty (ColumnUpdate.Name u) then
        Go.Returns (appendOperation a RenameColumnOp c)
      else if Go.nonEmpty (ColumnUpdate.DataType u) then
        Go.Returns (appendOperation a AlterColumnTypeOp c)
      else Go.Returns a
  | None => Go.Returns a
  end.

(** [Validate]: both checks run, each may add an error. *)
Definition Validate (a : t) : list Go.error :=
  let errors : list Go.error := [] in
  let errors :=
    if String.eqb (TableName a) "" then errors ++ ["table name cannot be empty"]
    else errors in
  let errors :=
    if (length (Operations a) =? 0)%nat
    then errors ++ ["alter table must have at least one operation"]
    else errors in
  errors.

Section WithStrconv.
Context {strconv : Strconv}.

(** The loop [for _, op := range t.Operations] of [ToSQL], started at the
    operation of index [i]. *)
Fixpoint operationsLoop (ords : nat -> Go.MapOrder) (i : nat)
    (ops : list ColumnOperation.t)
    (operationDefs : list string) (errors : list Go.error)
    : Go.result (list string * list Go.error) :=
  match ops with
  | [] => Go.Returns (operationDefs, errors)
  | op :: rest =>
      let col := ColumnOperation.Column op in
      match ColumnOperation.Operation op with
      | AddColumnOp =>
          match Column.ToSQL (ords i) col with
          | (_, Some err) =>
              operationsLoop ords (S i) rest operationDefs (errors ++ [err])
          | (colSQL, None) =>
              operationsLoop ords (S i) rest
                (operationDefs ++ ["ADD COLUMN " +:+ colSQL]) errors
          end
      | DropColumnOp =>
          operationsLoop ords (S i) rest
            (operationDefs ++ ["DROP COLUMN " +:+ Column.Name col]) errors
      | RenameColumnOp =>
          u <- Go.deref (Column.UpdateOptions col) ;;
          operationsLoop ords (S i) rest
            (operationDefs ++
               ["RENAME COLUMN " +:+ Column.Name col +:+ " TO " +:+ ColumnUpdate.Name u])
            errors
      | AlterColumnTypeOp =>
          newType <- Column.ToNewDataType col ;;
          operationsLoop ords (S i) rest
            (operationDefs ++
               ["ALTER COLUMN " +:+ Column.ToDataType col +:+ " TYPE " +:+ newType])
            errors
      end
  end.

(** [ToSQL] *)
Definition ToSQL (ords : nat -> Go.MapOrder) (a : t)
    : Go.result (string * list Go.error) :=
  let errors := Validate a in
  if (0 <? length errors)%nat then Go.Returns ("", errors)
  else
    let builder := "" in
    let builder := builder +:+ ("ALTER TABLE " +:+ TableName a) in
    r <- operationsLoop ords 0 (Operations a) [] errors ;;
    let '(operationDefs, errors) := r in
    if (length operationDefs =? 0)%nat then
      Go.Returns
        ("", errors ++ ["no valid operations defined for table " +:+ TableName a])
    else
      let builder := builder +:+ (" " +:+ Go.Join operationDefs ", ") in
      let sql := builder in
      let sql :=
        if Go.nonEmpty (Comment a)
        then sql +:+ (" COMMENT ON TABLE " +:+ TableName a +:+ " IS '" +:+ Comment a +:+ "'")
        else sql in
      Go.Returns (sql, []).

End WithStrconv.

End AlterTable.

(** ** drop_table.go *)

Module DropTable.

Record t : Type := mk {
  Name : string;
  Cascade : bool
}.

Definition NewDropTable (name : string) : t := mk name false.

Definition SetCascade (d : t) (cascade : bool) : t := mk (Name d) cascade.

Definition ToSQL (d : t) : string * option Go.error :=
  if String.eqb (Name d) "" then ("", Some "table name cannot be empty")
  else
    let sql := "DROP TABLE IF EXISTS " +:+ Name d in
    let sql := if Cascade d then sql +:+ " CASCADE" else sql in
    (sql, None).

End DropTable.

(** ** The index statement family (package [gomb])

    The struct fields are unexported, so outside the package a value is
    only ever obtained from a constructor followed by setter calls. The
    fields [using] and [where] are spelled [using_] and [where_], since
    the two words are reserved here. *)

Module Index.

Record t : Type := mk {
  name : string;
  table : string;
  columns : list string;
  unique : bool;
  concurrently : bool;
  using_ : string;
  where_ : string;
  schema : string;
  includeColumns : list string;
  method : string;
  tablespace : string;
  withOptions : list string
}.

(** [NewIndex]: the default access method goes to the field [using]; the
    field [method] keeps its zero value. *)
Definition NewIndex (nm : string) : t :=
  mk nm "" [] false false "btree" "" "" [] "" "" [].

Definition OnTable (idx : t) (tbl : string) : t :=
  let 'mk n _ cs u c us w s ic m ts wo := idx in mk n tbl cs u c us w s ic m ts wo.

Definition AddColumn (idx : t) (column : string) : t :=
  let 'mk n tb cs u c us w s ic m ts wo := idx in
  mk n tb (cs ++ [column]) u c us w s ic m ts wo.

Definition SetUnique (idx : t) : t :=
  let 'mk n tb cs _ c us w s ic m ts wo := idx in mk n tb cs true c us w s ic m ts wo.

Definition SetConcurrently (idx : t) : t :=
  let 'mk n tb cs u _ us w s ic m ts wo := idx in mk n tb cs u true us w s ic m ts wo.

Definition SetMethod (idx : t) (mth : string) : t :=
  let 'mk n tb cs u c us w s ic _ ts wo := idx in mk n tb cs u c us w s ic mth ts wo.

Definition SetWhere (idx : t) (condition : string) : t :=
  let 'mk n tb cs u c us _ s ic m ts wo := idx in mk n tb cs u c us condition s ic m ts wo.

Definition SetSchema (idx : t) (sch : string) : t :=
  let 'mk n tb cs u c us w _ ic m ts wo := idx in mk n tb cs u c us w sch ic m ts wo.

Definition AddIncludeColumn (idx : t) (column : string) : t :=
  let 'mk n tb cs u c us w s ic m ts wo := idx in
  mk n tb cs u c us w s (ic ++ [column]) m ts wo.

Definition SetTablespace (idx : t) (tsp : string) : t :=
  let 'mk n tb cs u c us w s ic m _ wo := idx in mk n tb cs u c us w s ic m tsp wo.

Definition AddWithOption (idx : t) (option : string) : t :=
  let 'mk n tb cs u c us w s ic m ts wo := idx in
  mk n tb cs u c us w s ic m ts (wo ++ [option]).

Definition PartialIndex (idx : t) (condition : string) : t := SetWhere idx condition.

Definition ExpressionIndex (idx : t) (expression : string) : t :=
  let 'mk n tb cs u c us w s ic m ts wo := idx in
  mk n tb (cs ++ [expression]) u c us w s ic m ts wo.

Definition MultiColumnIndex (idx : t) (cols : list string) : t :=
  let 'mk n tb cs u c us w s ic m ts wo := idx in
  mk n tb (cs ++ cols) u c us w s ic m ts wo.

(** [ToSQL] *)
Definition ToSQL (idx : t) : string * option Go.error :=
  if String.eqb (name idx) "" then ("", Some "index name is required")
  else if String.eqb (table idx) "" then ("", Some "table name is required")
  else if (length (columns idx) =? 0)%nat then
    ("", Some "at least one column is required for an index")
  else
    let sql := "" in
    let sql := sql +:+ "CREATE " in
    let sql := if unique idx then sql +:+ "UNIQUE " else sql in
    let sql := sql +:+ "INDEX " in
    let sql := if concurrently idx then sql +:+ "CONCURRENTLY " else sql in
    let sql := sql +:+ name idx in
    let sql := sql +:+ " ON " in
    let sql :=
      if Go.nonEmpty (schema idx) then (sql +:+ schema idx) +:+ "." else sql in
    let sql := sql +:+ table idx in
    let sql :=
      if Go.nonEmpty (method idx) then (sql +:+ " USING ") +:+ method idx else sql in
    let sql := sql +:+ " (" in
    let sql := sql +:+ Go.Join (columns idx) ", " in
    let sql := sql +:+ ")" in
    let sql :=
      if (0 <? length (includeColumns idx))%nat
      then ((sql +:+ " INCLUDE (") +:+ Go.Join (includeColumns idx) ", ") +:+ ")"
      else sql in
    let sql :=
      if Go.nonEmpty (where_ idx) then (sql +:+ " WHERE ") +:+ where_ idx else sql in
    let sql :=
      if (0 <? length (withOptions idx))%nat
      then ((sql +:+ " WITH (") +:+ Go.Join (withOptions idx) ", ") +:+ ")"
      else sql in
    let sql :=
      if Go.nonEmpty (tablespace idx)
      then (sql +:+ " TABLESPACE ") +:+ tablespace idx else sql in
    (sql, None).

End Index.

Module DropIndex.

Record t : Type := mk {
  name : string;
  ifExists : bool;
  concurrently : bool;
  cascade : bool;
  restrict : bool;
  schema : string
}.

Definition NewDropIndex (nm : string) : t := mk nm false false false false "".

Definition SetIfExists (di : t) : t :=
  mk (name di) true (concurrently di) (cascade di) (restrict di) (schema di).

Definition SetConcurrently (di : t) : t :=
  mk (name di) (ifExists di) true (cascade di) (restrict di) (schema di).

(** [SetCascade] sets [cascade] and clears [restrict]. *)
Definition SetCascade (di : t) : t :=
  mk (name di) (ifExists di) (concurrently di) true false (schema di).

(** [SetRestrict] sets [restrict] and clears [cascade]. *)
Definition SetRestrict (di : t) : t :=
  mk (name di) (ifExists di) (concurrently di) false true (schema di).

Definition SetSchema (di : t) (sch : string) : t :=
  mk (name di) (ifExists di) (concurrently di) (cascade di) (restrict di) sch.

(** [ToSQL] *)
Definition ToSQL (di : t) : string * option Go.error :=
  if String.eqb (name di) "" then ("", Some "index name is required")
  else
    let sql := "" in
    let sql := sql +:+ "DROP INDEX " in
    let sql := if concurrently di then sql +:+ "CONCURRENTLY " else sql in
    let sql := if ifExists di then sql +:+ "IF EXISTS " else sql in
    let sql :=
      if Go.nonEmpty (schema di) then (sql +:+ schema di) +:+ "." else sql in
    let sql := sql +:+ name di in
    let sql :=
      if cascade di then sql +:+ " CASCADE"
      else if restrict di then sql +:+ " RESTRICT"
      else sql in
    (sql, None).

End DropIndex.

Module RenameIndex.

Record t : Type := mk {
  oldName : string;
  newName : string;
  schema : string
}.

Definition NewRenameIndex (old new : string) : t := mk old new "".

Definition SetSchema (ri : t) (sch : string) : t := mk (oldName ri) (newName ri) sch.

(** [ToSQL] *)
Definition ToSQL (ri : t) : string * option Go.error :=
  if String.eqb (oldName ri) "" || String.eqb (newName ri) "" then
    ("", Some "both old and new index names are required")
  else
    let sql := "" in
    let sql := sql +:+ "ALTER INDEX " in
    let sql :=
      if Go.nonEmpty (schema ri) then (sql +:+ schema ri) +:+ "." else sql in
    let sql := sql +:+ oldName ri in
    let sql := sql +:+ " RENAME TO " in
    let sql := sql +:+ newName ri in
    (sql, None).

End RenameIndex.

Module ReindexOperation.

(** [target] holds the upper-cased target word stored by [NewReindex]. *)
Record t : Type := mk {
  target : string;
  name : string;
  concurrently : bool
}.

Definition SetConcurrently (ro : t) : t := mk (target ro) (name ro) true.

(** [ToSQL] *)
Definition ToSQL (ro : t) : string * option Go.error :=
  if String.eqb (target ro) "" then ("", Some "reindex target is required")
  else if String.eqb (name ro) "" && negb (String.eqb (target ro) "SYSTEM")
          && negb (String.eqb (target ro) "DATABASE") then
    ("", Some ("name is required for REINDEX " +:+ target ro))
  else
    let sql := "" in
    let sql := sql +:+ "REINDEX " in
    let sql := if concurrently ro then sql +:+ "CONCURRENTLY " else sql in
    let sql := sql +:+ target ro in
    let sql := if Go.nonEmpty (name ro) then (sql +:+ " ") +:+ name ro else sql in
    (sql, None).

End ReindexOperation.

Module SetIndexTablespace.

Record t : Type := mk {
  indexName : string;
  tablespace : string;
  nowait : bool;
  schema : string
}.

Definition NewSetIndexTablespace (idxName tsp : string) : t := mk idxName tsp false "".

Definition SetNowait (sit : t) : t := mk (indexName sit) (tablespace sit) true (schema sit).

Definition SetSchema (sit : t) (sch : string) : t :=
  mk (indexName sit) (tablespace sit) (nowait sit) sch.

(** [ToSQL] *)
Definition ToSQL (sit : t) : string * option Go.error :=
  if String.eqb (indexName sit) "" then ("", Some "index name is required")
  else if String.eqb (tablespace sit) "" then ("", Some "tablespace name is required")
  else
    let sql := "" in
    let sql := sql +:+ "ALTER INDEX " in
    let sql :=
      if Go.nonEmpty (schema sit) then (sql +:+ schema sit) +:+ "." else sql in
    let sql := sql +:+ indexName sit in
    let sql := sql +:+ " SET TABLESPACE " in
    let sql := sql +:+ tablespace sit in
    let sql := if nowait sit then sql +:+ " NOWAIT" else sql in
    (sql, None).

End SetIndexTablespace.

(** ** Builder scripts

    The index structs have unexported fields: a client reaches a value
    only through a constructor followed by setter calls. A script is the
    list of those calls, [run] replays it on the constructor's value. *)

Module IndexScript.

Inductive call : Type :=
| OnTable (tbl : string)
| AddColumn (column : string)
| SetUnique
| SetConcurrently
| SetMethod (mth : string)
| SetWhere (condition : string)
| SetSchema (sch : string)
| AddIncludeColumn (column : string)
| SetTablespace (tsp : string)
| AddWithOption (option : string)
| PartialIndex (condition : string)
| ExpressionIndex (expression : string)
| MultiColumnIndex (cols : list string).

Definition step (idx : Index.t) (c : call) : Index.t :=
  match c with
  | OnTable tbl => Index.OnTable idx tbl
  | AddColumn column => Index.AddColumn idx column
  | SetUnique => Index.SetUnique idx
  | SetConcurrently => Index.SetConcurrently idx
  | SetMethod mth => Index.SetMethod idx mth
  | SetWhere condition => Index.SetWhere idx condition
  | SetSchema sch => Index.SetSchema idx sch
  | AddIncludeColumn column => Index.AddIncludeColumn idx column
  | SetTablespace tsp => Index.SetTablespace idx tsp
  | AddWithOption option => Index.AddWithOption idx option
  | PartialIndex condition => Index.PartialIndex idx condition
  | ExpressionIndex expression => Index.ExpressionIndex idx expression
  | MultiColumnIndex cols => Index.MultiColumnIndex idx cols
  end.

Definition run (nm : string) (script : list call) : Index.t :=
  fold_left step script (Index.NewIndex nm).

Definition isSetMethod (c : call) : bool :=
  match c with
  | SetMethod _ => true
  | _ => false
  end.

(** The argument of the last [SetMethod] call of a script, if any. *)
Definition lastMethod (script : list call) : option string :=
  fold_left (fun acc c => match c with SetMethod mth => Some mth | _ => acc end)
            script None.

(** The columns and expressions a script adds, in call order. *)
Definition scriptColumns (script : list call) : list string :=
  flat_map (fun c => match c with
                     | AddColumn column => [column]
                     | ExpressionIndex expression => [expression]
                     | MultiColumnIndex cols => cols
                     | _ => []
                     end) script.

(** The INCLUDE columns a script adds, in call order. *)
Definition scriptIncludeColumns (script : list call) : list string :=
  flat_map (fun c => match c with
                     | AddIncludeColumn column => [column]
                     | _ => []
                     end) script.

(** The WITH options a script adds, in call order. *)
Definition scriptWithOptions (script : list call) : list string :=
  flat_map (fun c => match c with
                     | AddWithOption option => [option]
                     | _ => []
                     end) script.

(** The argument of the last [OnTable] call of a script, if any. *)
Definition lastTable (script : list call) : option string :=
  fold_left (fun acc c => match c with OnTable tbl => Some tbl | _ => acc end)
            script None.

End IndexScript.

Module DropIndexScript.

Inductive call : Type :=
| SetIfExists
| SetConcurrently
| SetCascade
| SetRestrict
| SetSchema (sch : string).

Definition step (di : DropIndex.t) (c : call) : DropIndex.t :=
  match c with
  | SetIfExists => DropIndex.SetIfExists di
  | SetConcurrently => DropIndex.SetConcurrently di
  | SetCascade => DropIndex.SetCascade di
  | SetRestrict => DropIndex.SetRestrict di
  | SetSchema sch => DropIndex.SetSchema di sch
  end.

Definition run (nm : string) (script : list call) : DropIndex.t :=
  fold_left step script (DropIndex.NewDropIndex nm).

(** The last of the [SetCascade] / [SetRestrict] calls of a script:
    [Some true] for [SetCascade], [Some false] for [SetRestrict]. *)
Definition lastBehaviour (script : list call) : option bool :=
  fold_left (fun acc c => match c with
                          | SetCascade => Some true
                          | SetRestrict => Some false
                          | _ => acc
                          end) script None.

Definition isSetIfExists (c : call) : bool :=
  match c with SetIfExists => true | _ => false end.

Definition isSetConcurrently (c : call) : bool :=
  match c with SetConcurrently => true | _ => false end.

End DropIndexScript.

Module AlterTableScript.

(** The three builder methods of [AlterTable], each taking a possibly nil
    column pointer. *)
Inductive call : Type :=
| AddColumn (column : option Column.t)
| DropColumn (column : option Column.t)
| AlterColumn (column : option Column.t).

Definition step (a : AlterTable.t) (c : call) : Go.result AlterTable.t :=
  match c with
  | AddColumn column => Go.Returns (AlterTable.AddColumn a column)
  | DropColumn column => Go.Returns (AlterTable.DropColumn a column)
  | AlterColumn column => AlterTable.AlterColumn a column
  end.

(** The calls of a script in order; a panic ends the run. *)
Fixpoint runFrom (a : AlterTable.t) (script : list call) : Go.result AlterTable.t :=
  match script with
  | [] => Go.Returns a
  | c :: rest => a' <- step a c ;; runFrom a' rest
  end.

Definition run (nm : string) (script : list call) : Go.result AlterTable.t :=
  runFrom (AlterTable.NewAlterTable nm) script.

(** A call that hands [AlterColumn] a column without update descriptor. *)
Definition dereferencesNil (c : call) : bool :=
  match c with
  | AlterColumn (Some col) =>
      match Column.UpdateOptions col with
      | None => true
      | Some _ => false
      end
  | _ => false
  end.

End AlterTableScript.

(** ** The statements as the specification words them

    Each definition below follows the prose of the specification, not the
    code; the theorems compare the two. *)

Module Spec.

(** An optional clause [[text]]. *)
Definition opt (present : bool) (text : string) : string :=
  if present then text else "".

(** [[<schema>.]<name>] *)
Definition qualified (schema name : string) : string :=
  opt (Go.nonEmpty schema) (schema +:+ ".") +:+ name.

(** [CREATE [UNIQUE] INDEX [CONCURRENTLY] <name> ON [<schema>.]<table>
    <using-clause> (<col-list>) [INCLUDE (<include-list>)]
    [WHERE <predicate>] [WITH (<opt-list>)] [TABLESPACE <ts>]], with the
    text of the USING clause left as an argument. *)
Definition createIndex (usingClause : string) (idx : Index.t) : string :=
  "CREATE " +:+ opt (Index.unique idx) "UNIQUE " +:+ "INDEX "
  +:+ opt (Index.concurrently idx) "CONCURRENTLY "
  +:+ Index.name idx +:+ " ON " +:+ qualified (Index.schema idx) (Index.table idx)
  +:+ usingClause
  +:+ " (" +:+ Go.Join (Index.columns idx) ", " +:+ ")"
  +:+ opt (0 <? length (Index.includeColumns idx))%nat
          (" INCLUDE (" +:+ Go.Join (Index.includeColumns idx) ", " +:+ ")")
  +:+ opt (Go.nonEmpty (Index.where_ idx)) (" WHERE " +:+ Index.where_ idx)
  +:+ opt (0 <? length (Index.withOptions idx))%nat
          (" WITH (" +:+ Go.Join (Index.withOptions idx) ", " +:+ ")")
  +:+ opt (Go.nonEmpty (Index.tablespace idx)) (" TABLESPACE " +:+ Index.tablespace idx).

(** [USING <method>] for an explicitly chosen, non-empty method; nothing
    otherwise. *)
Definition usingClause (explicitMethod : option string) : string :=
  match explicitMethod with
  | Some mth => opt (Go.nonEmpty mth) (" USING " +:+ mth)
  | None => ""
  end.

(** [DROP INDEX [CONCURRENTLY] [IF EXISTS] [<schema>.]<name>
    [CASCADE|RESTRICT]]: the two trailing words are separate optional
    clauses, each present when its flag is set. *)
Definition dropIndex (di : DropIndex.t) : string :=
  "DROP INDEX " +:+ opt (DropIndex.concurrently di) "CONCURRENTLY "
  +:+ opt (DropIndex.ifExists di) "IF EXISTS "
  +:+ qualified (DropIndex.schema di) (DropIndex.name di)
  +:+ opt (DropIndex.cascade di) " CASCADE"
  +:+ opt (DropIndex.restrict di) " RESTRICT".

(** [ALTER INDEX [<schema>.]<name> SET TABLESPACE <tablespace>] with
    [ NOWAIT] appended when the flag is set. *)
Definition setIndexTablespace (sit : SetIndexTablespace.t) : string :=
  "ALTER INDEX "
  +:+ qualified (SetIndexTablespace.schema sit) (SetIndexTablespace.indexName sit)
  +:+ " SET TABLESPACE " +:+ SetIndexTablespace.tablespace sit
  +:+ opt (SetIndexTablespace.nowait sit) " NOWAIT".

(** [s] contains the text [sub]. *)
Definition contains (s sub : string) : Prop :=
  exists before after, s = before +:+ sub +:+ after.

(** The six validation rules of a column, (a) to (f). *)
Definition recognized (dt : DataType) : Prop :=
  In dt [SerialType; StringType; IntegerType; DecimalType; BooleanType;
         DateType; DateTimeType].

Definition rule_a (c : Column.t) : Prop := recognized (Column.DataType c).

Definition rule_b (c : Column.t) : Prop :=
  Column.AutoNumber c = true -> 0 <= Column.AutoNumberStart c.

Definition rule_c (c : Column.t) : Prop :=
  ~ (Column.NotNull c = true /\ Column.Default c <> "").

Definition rule_d (c : Column.t) : Prop :=
  0 < Column.IdentityStart c -> 0 < Column.IdentityInc c.

Definition rule_e (c : Column.t) : Prop :=
  Column.Check c <> "" -> contains (Column.Check c) "(".

Definition rule_f (c : Column.t) : Prop :=
  Column.References c <> "" -> contains (Column.References c) "(".

(** The result of each column's [ToSQL] call, in list order; the call on
    the column of index [i + j] visits its attribute map in order
    [ords (i + j)]. *)
Fixpoint columnResults `{Strconv} (ords : nat -> Go.MapOrder) (i : nat)
    (cols : list Column.t) : list (string * option Go.error) :=
  match cols with
  | [] => []
  | col :: rest => Column.ToSQL (ords i) col :: columnResults ords (S i) rest
  end.

(** The texts of the calls that succeeded, in list order. *)
Definition serialized (results : list (string * option Go.error)) : list string :=
  omap (fun r => match r.2 with None => Some r.1 | Some _ => None end) results.

(** The errors of the calls that failed, in list order. *)
Definition failures (results : list (string * option Go.error)) : list Go.error :=
  omap (fun r => r.2) results.

(** [CREATE TABLE <name> (<col1>, <col2>, ...)] followed, when the table
    has a comment, by [COMMENT ON TABLE <name> IS '<comment>']. *)
Definition createTable (tb : Table.t) (columnDefs : list string) : string :=
  "CREATE TABLE " +:+ Table.Name tb +:+ " (" +:+ Go.Join columnDefs ", " +:+ ")"
  +:+ opt (Go.nonEmpty (Table.Comment tb))
          (" COMMENT ON TABLE " +:+ Table.Name tb +:+ " IS '"
           +:+ Table.Comment tb +:+ "'").

(** The [ key value] clauses of a list of attribute entries. *)
Fixpoint attributeClauses (entries : list (string * Go.any)) : string :=
  match entries with
  | [] => ""
  | kv :: rest => " " +:+ kv.1 +:+ " " +:+ Go.fmt_v kv.2 +:+ attributeClauses rest
  end.

(** [ALTER COLUMN <type-token-of-current-type> TYPE
    <type-token-of-new-type>] *)
Definition alterType (col : Column.t) (u : ColumnUpdate.t) : string :=
  "ALTER COLUMN " +:+ Column.ToDataTypeString col (Column.DataType col)
  +:+ " TYPE " +:+ Column.ToDataTypeString col (ColumnUpdate.DataType u).

(** The clauses of a column definition in the order [Column.ToSQL] writes
    them, the attribute clauses apart: name, type token, PRIMARY KEY, the
    auto-increment clause with its optional START WITH and PREFIX parts,
    NOT NULL, UNIQUE, the default clause (quoted or not), CHECK,
    REFERENCES, GENERATED ALWAYS AS, COLLATE, COMMENT, STORAGE,
    COMPRESSION and IDENTITY. *)
Definition columnClauses `{Strconv} (c : Column.t) : string :=
  Column.Name c +:+ " "
  +:+ opt (Go.nonEmpty (Column.DataType c))
          (Column.ToDataTypeString c (Column.DataType c))
  +:+ opt (Column.PrimaryKey c) " PRIMARY KEY"
  +:+ opt (Column.AutoNumber c)
          (" AUTOINCREMENT"
           +:+ opt (0 <? Column.AutoNumberStart c)
                   (" START WITH " +:+ Go.fmt_d (Column.AutoNumberStart c))
           +:+ opt (Go.nonEmpty (Column.AutoNumberPrefix c))
                   (" PREFIX '" +:+ Column.AutoNumberPrefix c +:+ "'"))
  +:+ opt (Column.NotNull c) " NOT NULL"
  +:+ opt (Column.Unique c) " UNIQUE"
  +:+ opt (Go.nonEmpty (Column.Default c))
          (if Column.needsQuotes (Column.Default c)
           then " DEFAULT '" +:+ Column.Default c +:+ "'"
           else " DEFAULT " +:+ Column.Default c)
  +:+ opt (Go.nonEmpty (Column.Check c)) (" CHECK " +:+ Column.Check c)
  +:+ opt (Go.nonEmpty (Column.References c))
          (" REFERENCES " +:+ Column.References c)
  +:+ opt (Go.nonEmpty (Column.Generated c))
          (" GENERATED ALWAYS AS (" +:+ Column.Generated c +:+ ")")
  +:+ opt (Go.nonEmpty (Column.Collation c)) (" COLLATE " +:+ Column.Collation c)
  +:+ opt (Go.nonEmpty (Column.Comment c))
          (" COMMENT '" +:+ Column.Comment c +:+ "'")
  +:+ opt (Go.nonEmpty (Column.Storage c)) (" STORAGE " +:+ Column.Storage c)
  +:+ opt (Go.nonEmpty (Column.Compression c))
          (" COMPRESSION " +:+ Column.Compression c)
  +:+ opt ((0 <? Column.IdentityStart c) && (0 <? Column.IdentityInc c))
          (" IDENTITY (" +:+ Go.fmt_d (Column.IdentityStart c) +:+ ","
           +:+ Go.fmt_d (Column.IdentityInc c) +:+ ")").

(** What one operation of an ALTER TABLE contributes: the text of its
    definition, or the error of its column for an add operation whose
    column fails; reading a missing update descriptor panics. *)
Definition operationResult `{Strconv} (ord : Go.MapOrder) (op : ColumnOperation.t)
    : Go.result (string * option Go.error) :=
  let col := ColumnOperation.Column op in
  match ColumnOperation.Operation op with
  | AddColumnOp =>
      match Column.ToSQL ord col with
      | (_, Some err) => Go.Returns ("", Some err)
      | (colSQL, None) => Go.Returns ("ADD COLUMN " +:+ colSQL, None)
      end
  | DropColumnOp => Go.Returns ("DROP COLUMN " +:+ Column.Name col, None)
  | RenameColumnOp =>
      u <- Go.deref (Column.UpdateOptions col) ;;
      Go.Returns ("RENAME COLUMN " +:+ Column.Name col +:+ " TO "
                  +:+ ColumnUpdate.Name u, None)
  | AlterColumnTypeOp =>
      u <- Go.deref (Column.UpdateOptions col) ;;
      Go.Returns (alterType col u, None)
  end.

(** The contributions of the operations in list order, the operation of
    index [i + j] using the visiting order [ords (i + j)]. *)
Fixpoint operationResults `{Strconv} (ords : nat -> Go.MapOrder) (i : nat)
    (ops : list ColumnOperation.t) : Go.result (list (string * option Go.error)) :=
  match ops with
  | [] => Go.Returns []
  | op :: rest =>
      r <- operationResult (ords i) op ;;
      rs <- operationResults ords (S i) rest ;;
      Go.Returns (r :: rs)
  end.

(** [ALTER TABLE <name> <op1>, <op2>, ...] followed, when the statement
    has a comment, by [ COMMENT ON TABLE <name> IS '<comment>']. *)
Definition alterTable (a : AlterTable.t) (operationDefs : list string) : string :=
  "ALTER TABLE " +:+ AlterTable.TableName a +:+ " " +:+ Go.Join operationDefs ", "
  +:+ opt (Go.nonEmpty (AlterTable.Comment a))
          (" COMMENT ON TABLE " +:+ AlterTable.TableName a +:+ " IS '"
           +:+ AlterTable.Comment a +:+ "'").

(** An operation list on which [ToSQL] reads no nil update descriptor. *)
Definition descriptorsPresent (ops : list ColumnOperation.t) : Prop :=
  Forall (fun op =>
            match ColumnOperation.Operation op with
            | RenameColumnOp | AlterColumnTypeOp =>
                is_Some (Column.UpdateOptions (ColumnOperation.Column op))
            | _ => True
            end) ops.

End Spec.

(** ** A concrete number reader for the closed examples

    [plainDecimal] accepts an optional sign followed by one or more digits:
    texts on which [strconv.ParseFloat] reports no error. *)

Definition isDigit (c : ascii) : bool :=
  (48 <=? nat_of_ascii c)%nat && (nat_of_ascii c <=? 57)%nat.

Fixpoint allDigits (s : string) : bool :=
  match s with
  | EmptyString => true
  | String c s' => isDigit c && allDigits s'
  end.

Definition plainDecimal (s : string) : bool :=
  match s with
  | EmptyString => false
  | String c s' =>
      if Ascii.eqb c "+" || Ascii.eqb c "-"
      then Go.nonEmpty s' && allDigits s'
      else allDigits s
  end.

Definition exampleStrconv : Strconv := {| ParseFloat_ok := plainDecimal |}.

(** Two admissible visiting orders: the map's canonical enumeration and its
    reverse. *)
Definition forwardOrder : Go.MapOrder := map_to_list.

Definition backwardOrder : Go.MapOrder := fun m => reverse (map_to_list m).

(** ** Sample values used by the closed examples *)

(** A valid integer column carrying two extension attributes. *)
Definition twoAttributes : gmap string Go.any :=
  <["b" := Go.AnyInt 2]> (<["a" := Go.AnyString "one"]> ∅).

Definition attributedColumn : Column.t :=
  Column.SetAttributes
    (Column.SetDataType (Column.NewColumn "x") IntegerType) twoAttributes.

(** An ALTER TABLE with an add operation whose column has no data type
    (so it fails validation) followed by a drop operation. *)
Definition mixedAlterTable : AlterTable.t :=
  AlterTable.DropColumn
    (AlterTable.AddColumn (AlterTable.NewAlterTable "users")
       (Some (Column.NewColumn "email")))
    (Some (Column.NewColumn "temp_field")).

(** The column of the repository's alter-type test: an integer column
    asked to become a string column. *)
Definition retypedColumn : Column.t :=
  Column.SetNewDataType
    (Column.SetDataType (Column.NewColumn "ownerId") IntegerType) StringType.

(** A valid integer column with a single extension attribute. *)
Definition singleAttributeColumn : Column.t :=
  Column.SetAttributes
    (Column.SetDataType (Column.NewColumn "x") IntegerType)
    (<["a" := Go.AnyString "one"]> ∅).

(** A table whose first column is valid and whose second column has no
    data type. *)
Definition mixedTable : Table.t :=
  Table.AddColumn
    (Table.AddColumn (Table.NewTable "users")
       (Column.SetPrimaryKey (Column.SetDataType (Column.NewColumn "id") SerialType)))
    (Column.NewColumn "nickname").

(** The table of the repository's "Basic Table" test. *)
Definition basicTable : Table.t :=
  Table.AddColumn
    (Table.AddColumn (Table.NewTable "users")
       (Column.SetDataType (Column.SetPrimaryKey (Column.NewColumn "id")) SerialType))
    (Column.SetLength (Column.SetDataType (Column.NewColumn "name") StringType) 50).

(** A column exercising most clauses of [Column.ToSQL]. *)
Definition richColumn : Column.t :=
  Column.SetComment
    (Column.SetReferences
       (Column.SetCheck
          (Column.SetDefault
             (Column.SetUnique
                (Column.SetAutoNumberWithPrefix
                   (Column.SetPrimaryKey
                      (Column.SetLength
                         (Column.SetDataType (Column.NewColumn "code") StringType) 12))
                   100 "INV"))
             "none")
          "(length(code) > 3)")
       "catalog" "code")
    "Catalog code".

(** * Properties *)

(** ** Strings *)

Lemma append_cons (x : ascii) (a b : string) :
  String x a +:+ b = String x (a +:+ b).
Proof. reflexivity. Qed.

Lemma append_assoc (a b c : string) : (a +:+ b) +:+ c = a +:+ (b +:+ c).
Proof.
  induction a as [|x a IH]; [reflexivity |].
  rewrite !append_cons. now rewrite IH.
Qed.

Lemma append_nil_r (a : string) : a +:+ "" = a.
Proof.
  induction a as [|x a IH]; [reflexivity |].
  rewrite append_cons. now rewrite IH.
Qed.

Lemma append_nil_l (a : string) : "" +:+ a = a.
Proof. reflexivity. Qed.

Lemma nonEmpty_true (s : string) : Go.nonEmpty s = true <-> s <> "".
Proof.
  unfold Go.nonEmpty. rewrite negb_true_iff. split.
  - intros H ->. discriminate.
  - intros H. apply String.eqb_neq. exact H.
Qed.

Lemma nonEmpty_false (s : string) : Go.nonEmpty s = false <-> s = "".
Proof.
  unfold Go.nonEmpty. rewrite negb_false_iff. apply String.eqb_eq.
Qed.

Lemma HasPrefix_iff (s p : string) :
  Go.HasPrefix s p = true <-> exists after, s = p +:+ after.
Proof.
  revert s. induction p as [|x p IH]; intros s.
  - split; [intros _; now exists s | destruct s; reflexivity].
  - destruct s as [|y s]; cbn.
    + split; [discriminate | intros [after H]; discriminate].
    + rewrite andb_true_iff, IH, Ascii.eqb_eq. split.
      * intros [-> [after ->]]. now exists after.
      * intros [after H]. injection H as -> ->. split; [reflexivity | now exists after].
Qed.

(** [strings.Contains] decides the presence of a substring. *)
Lemma Contains_iff (s sub : string) :
  Go.Contains s sub = true <-> Spec.contains s sub.
Proof.
  unfold Spec.contains. induction s as [|y s IH].
  - cbn [Go.Contains]. rewrite orb_false_r, HasPrefix_iff. split.
    + intros [after H]. now exists "", after.
    + intros [[|b before] [after H]]; [now exists after | discriminate].
  - cbn [Go.Contains]. rewrite orb_true_iff, HasPrefix_iff, IH. split.
    + intros [[after H] | [before [after H]]].
      * now exists "", after.
      * exists (String y before), after. cbn. now rewrite H.
    + intros [[|b before] [after H]].
      * left. now exists after.
      * right. cbn in H. injection H as -> ->. now exists before, after.
Qed.

(** ** Column: validation and type tokens *)

Lemma validDataTypes_recognized (dt : DataType) :
  default false (Column.validDataTypes !! dt) = true <-> Spec.recognized dt.
Proof.
  unfold Column.validDataTypes, Spec.recognized.
  repeat (rewrite lookup_insert; case_decide;
          [subst dt; cbn; split; [intros _; auto 10 | reflexivity] |]).
  rewrite lookup_empty. cbn. split; [discriminate |].
  intros Hin. repeat (destruct Hin as [Hin | Hin]; [congruence |]). destruct Hin.
Qed.

Lemma rule_a_decided (c : Column.t) :
  negb (default false (Column.validDataTypes !! Column.DataType c)) = false
  <-> Spec.rule_a c.
Proof. rewrite negb_false_iff. apply validDataTypes_recognized. Qed.

Lemma rule_b_decided (c : Column.t) :
  Column.AutoNumber c && (Column.AutoNumberStart c <? 0) = false <-> Spec.rule_b c.
Proof.
  unfold Spec.rule_b. rewrite andb_false_iff, Z.ltb_ge.
  destruct (Column.AutoNumber c); intuition congruence.
Qed.

Lemma rule_c_decided (c : Column.t) :
  Column.NotNull c && Go.nonEmpty (Column.Default c) = false <-> Spec.rule_c c.
Proof.
  unfold Spec.rule_c. rewrite andb_false_iff, nonEmpty_false.
  destruct (Column.NotNull c); split; intros H.
  - intros [_ Hd]. destruct H; congruence.
  - right. destruct (decide (Column.Default c = "")) as [|Hne]; [assumption |].
    exfalso. apply H. split; [reflexivity | assumption].
  - intros [Hn _]. discriminate.
  - now left.
Qed.

Lemma rule_d_decided (c : Column.t) :
  (0 <? Column.IdentityStart c) && (Column.IdentityInc c <=? 0) = false
  <-> Spec.rule_d c.
Proof.
  unfold Spec.rule_d. rewrite andb_false_iff, Z.ltb_ge, Z.leb_gt. lia.
Qed.

Lemma parenthesis_decided (s : string) :
  Go.nonEmpty s && negb (Go.Contains s "(") = false
  <-> (s <> "" -> Spec.contains s "(").
Proof.
  rewrite andb_false_iff, nonEmpty_false, negb_false_iff, Contains_iff.
  destruct (decide (s = "")); tauto.
Qed.

(** C6. [Column.Validate] checks the rules (a) recognized data type, (b)
    auto-number start at least zero, (c) not both NOT NULL and a default,
    (d) a positive identity start needs a positive increment, (e) a check
    expression contains an opening parenthesis, (f) so does a reference
    string, in this order: the error returned is that of the first rule
    that fails, the result is nil exactly when all six hold, and
    [Column.ToSQL] returns the empty string with that very error. *)
Theorem C6_Validate_first_failing_rule (c : Column.t) :
  (Column.Validate c = None <->
     Spec.rule_a c /\ Spec.rule_b c /\ Spec.rule_c c /\
     Spec.rule_d c /\ Spec.rule_e c /\ Spec.rule_f c) /\
  (~ Spec.rule_a c ->
     Column.Validate c = Some ("invalid data type: " +:+ Column.DataType c)) /\
  (Spec.rule_a c -> ~ Spec.rule_b c ->
     Column.Validate c = Some "auto-number start must be greater or equal than 0") /\
  (Spec.rule_a c -> Spec.rule_b c -> ~ Spec.rule_c c ->
     Column.Validate c =
       Some "column cannot be both NOT NULL and have a DEFAULT value") /\
  (Spec.rule_a c -> Spec.rule_b c -> Spec.rule_c c -> ~ Spec.rule_d c ->
     Column.Validate c = Some "identity increment must be greater than 0") /\
  (Spec.rule_a c -> Spec.rule_b c -> Spec.rule_c c -> Spec.rule_d c ->
   ~ Spec.rule_e c ->
     Column.Validate c =
       Some "check constraint must have an expression in parentheses") /\
  (Spec.rule_a c -> Spec.rule_b c -> Spec.rule_c c -> Spec.rule_d c ->
   Spec.rule_e c -> ~ Spec.rule_f c ->
     Column.Validate c =
       Some "foreign key references must be in the format 'table(column)'") /\
  (forall (strconv : Strconv) (ord : Go.MapOrder) (err : Go.error),
     Column.Validate c = Some err -> Column.ToSQL ord c = ("", Some err)).
Proof.
  pose proof (rule_a_decided c) as Ha. pose proof (rule_b_decided c) as Hb.
  pose proof (rule_c_decided c) as Hc. pose proof (rule_d_decided c) as Hd.
  pose proof (parenthesis_decided (Column.Check c)) as He.
  pose proof (parenthesis_decided (Column.References c)) as Hf.
  fold (Spec.rule_e c) in He. fold (Spec.rule_f c) in Hf.
  assert (Hsql : forall (strconv : Strconv) ord err,
             Column.Validate c = Some err -> Column.ToSQL ord c = ("", Some err)).
  { intros strconv ord err H. unfold Column.ToSQL. now rewrite H. }
  unfold Column.Validate in *.
  destruct (negb _);
  destruct (Column.AutoNumber c && _);
  destruct (Column.NotNull c && _);
  destruct ((0 <? Column.IdentityStart c) && _);
  destruct (Go.nonEmpty (Column.Check c) && _);
  destruct (Go.nonEmpty (Column.References c) && _);
  repeat split; try assumption; intuition congruence.
Qed.

Lemma eqb_unrecognized (data tok : DataType) :
  ~ Spec.recognized data -> In tok
    [SerialType; StringType; IntegerType; DecimalType; BooleanType;
     DateType; DateTimeType] ->
  String.eqb data tok = false.
Proof.
  intros Hn Hin. apply String.eqb_neq. intros ->. now apply Hn.
Qed.

(** [IsValidDataType] and the map [validDataTypes] accept the same seven
    tokens. *)
Lemma IsValidDataType_recognized (dt : DataType) :
  Column.IsValidDataType dt = true <-> Spec.recognized dt.
Proof.
  unfold Column.IsValidDataType, Spec.recognized.
  rewrite !orb_true_iff, !String.eqb_eq. cbn. intuition congruence.
Qed.

(** A positive precision with a negative scale falls through both tests of
    the decimal branch. *)
Lemma ToDataTypeString_negative_scale (col : Column.t) :
  0 < Column.Precision col -> Column.Scale col < 0 ->
  Column.ToDataTypeString col DecimalType = "DECIMAL".
Proof.
  intros Hp Hs. unfold Column.ToDataTypeString. cbn.
  destruct (Z.ltb_spec 0 (Column.Precision col)); [| lia].
  destruct (Z.ltb_spec 0 (Column.Scale col)); [lia |].
  destruct (Z.eqb_spec (Column.Scale col) 0); [lia | reflexivity].
Qed.

(** C7. The type token is a function of the data type and of the length,
    precision and scale alone: serial gives SERIAL; string gives
    VARCHAR(n) when the length is positive and VARCHAR otherwise; integer
    gives INTEGER; decimal gives DECIMAL(p,s) when precision and scale are
    both set (positive), DECIMAL(p) when only the precision is set
    (positive precision, scale left at zero) and DECIMAL in every other
    case; boolean, date and datetime give BOOLEAN, DATE and TIMESTAMP; a
    data type outside the seven gives VARCHAR, and no case reports an
    error (the result is always a plain string). *)
Theorem C7_type_token_mapping (col : Column.t) :
  Column.ToDataTypeString col SerialType = "SERIAL" /\
  (0 < Column.Length col ->
     Column.ToDataTypeString col StringType
     = "VARCHAR(" +:+ Go.fmt_d (Column.Length col) +:+ ")") /\
  (Column.Length col <= 0 -> Column.ToDataTypeString col StringType = "VARCHAR") /\
  Column.ToDataTypeString col IntegerType = "INTEGER" /\
  (0 < Column.Precision col -> 0 < Column.Scale col ->
     Column.ToDataTypeString col DecimalType
     = "DECIMAL(" +:+ Go.fmt_d (Column.Precision col) +:+ ","
       +:+ Go.fmt_d (Column.Scale col) +:+ ")") /\
  (0 < Column.Precision col -> Column.Scale col = 0 ->
     Column.ToDataTypeString col DecimalType
     = "DECIMAL(" +:+ Go.fmt_d (Column.Precision col) +:+ ")") /\
  (~ (0 < Column.Precision col /\ 0 < Column.Scale col) ->
   ~ (0 < Column.Precision col /\ Column.Scale col = 0) ->
     Column.ToDataTypeString col DecimalType = "DECIMAL") /\
  Column.ToDataTypeString col BooleanType = "BOOLEAN" /\
  Column.ToDataTypeString col DateType = "DATE" /\
  Column.ToDataTypeString col DateTimeType = "TIMESTAMP" /\
  (forall data : DataType,
     ~ Spec.recognized data -> Column.ToDataTypeString col data = "VARCHAR") /\
  (forall (col' : Column.t) (data : DataType),
     Column.Length col' = Column.Length col ->
     Column.Precision col' = Column.Precision col ->
     Column.Scale col' = Column.Scale col ->
     Column.ToDataTypeString col' data = Column.ToDataTypeString col data).
Proof.
  repeat split; try reflexivity.
  - intros H. unfold Column.ToDataTypeString. cbn.
    destruct (Z.ltb_spec 0 (Column.Length col)); [reflexivity | lia].
  - intros H. unfold Column.ToDataTypeString. cbn.
    destruct (Z.ltb_spec 0 (Column.Length col)); [lia | reflexivity].
  - intros Hp Hs. unfold Column.ToDataTypeString. cbn.
    destruct (Z.ltb_spec 0 (Column.Precision col)); [| lia].
    destruct (Z.ltb_spec 0 (Column.Scale col)); [reflexivity | lia].
  - intros Hp Hs. unfold Column.ToDataTypeString. cbn.
    destruct (Z.ltb_spec 0 (Column.Precision col)); [| lia].
    rewrite Hs. reflexivity.
  - intros H1 H2. unfold Column.ToDataTypeString. cbn.
    destruct (Z.ltb_spec 0 (Column.Precision col));
      destruct (Z.ltb_spec 0 (Column.Scale col));
      destruct (Z.eqb_spec (Column.Scale col) 0); cbn; try reflexivity; lia.
  - intros data Hn. unfold Column.ToDataTypeString.
    rewrite !(eqb_unrecognized data) by (auto; cbn; auto 10). reflexivity.
  - intros col' data Hl Hp Hs. unfold Column.ToDataTypeString.
    now rewrite Hl, Hp, Hs.
Qed.

(** ** Column: the attribute loop *)

Lemma fold_writeAttribute (entries : list (string * Go.any)) (builder : string) :
  fold_left Column.writeAttribute entries builder
  = builder +:+ Spec.attributeClauses entries.
Proof.
  revert builder. induction entries as [|kv rest IH]; intros builder; cbn.
  - now rewrite append_nil_r.
  - rewrite IH. unfold Column.writeAttribute.
    now rewrite !append_assoc.
Qed.

Lemma ToSQL_valid `{Strconv} (ord : Go.MapOrder) (c : Column.t) :
  Column.Validate c = None ->
  Column.ToSQL ord c
  = (Column.writeClauses c +:+ Spec.attributeClauses (ord (Column.Attributes c)),
     None).
Proof.
  intros Hv. unfold Column.ToSQL. rewrite Hv. now rewrite fold_writeAttribute.
Qed.

Lemma ToSQL_invalid `{Strconv} (ord : Go.MapOrder) (c : Column.t) (err : Go.error) :
  Column.Validate c = Some err -> Column.ToSQL ord c = ("", Some err).
Proof. intros Hv. unfold Column.ToSQL. now rewrite Hv. Qed.

(** The error of [ToSQL] is the verdict of [Validate], nothing else. *)
Lemma ToSQL_error_is_Validate `{Strconv} (ord : Go.MapOrder) (c : Column.t) :
  (Column.ToSQL ord c).2 = Column.Validate c.
Proof. unfold Column.ToSQL. destruct (Column.Validate c); reflexivity. Qed.

(** A map with at most one entry leaves the loop no choice. *)
Lemma RangeOrder_small (ord : Go.MapOrder) (m : gmap string Go.any) :
  Go.RangeOrder ord -> (size m <= 1)%nat -> ord m = map_to_list m.
Proof.
  intros Hord Hsize. specialize (Hord m).
  rewrite <- length_map_to_list in Hsize.
  destruct (map_to_list m) as [|x [|y l]]; cbn in Hsize; [| | lia].
  - now apply Permutation_nil_r.
  - now apply Permutation_singleton_r.
Qed.

Lemma forwardOrder_RangeOrder : Go.RangeOrder forwardOrder.
Proof. intros m. reflexivity. Qed.

Lemma backwardOrder_RangeOrder : Go.RangeOrder backwardOrder.
Proof. intros m. unfold backwardOrder. apply reverse_Permutation. Qed.

(** A Go map keeps no trace of the order in which its keys were stored:
    the two orders of insertion build the same map. *)
Lemma insertion_order_not_recorded (m : gmap string Go.any)
    (k1 k2 : string) (v1 v2 : Go.any) :
  k1 <> k2 -> <[k1 := v1]> (<[k2 := v2]> m) = <[k2 := v2]> (<[k1 := v1]> m).
Proof. intros Hne. now apply insert_insert_ne. Qed.

(** C2, as amended. For a valid column, [ToSQL] returns the clauses from
    the name to the identity clause, the same on every call, followed by
    one [ key value] clause per entry of the attribute map in the order
    in which the call's loop visits the map; two calls visit the same
    entries, possibly in different orders, and return the same bytes
    whenever the map holds at most one entry. *)
Theorem C2_ToSQL_deterministic_up_to_attribute_order
    (strconv : Strconv) (c : Column.t) (ord1 ord2 : Go.MapOrder) :
  Column.Validate c = None ->
  Go.RangeOrder ord1 -> Go.RangeOrder ord2 ->
  Column.ToSQL ord1 c
  = (Column.writeClauses c +:+ Spec.attributeClauses (ord1 (Column.Attributes c)),
     None) /\
  Column.ToSQL ord2 c
  = (Column.writeClauses c +:+ Spec.attributeClauses (ord2 (Column.Attributes c)),
     None) /\
  ord1 (Column.Attributes c) ≡ₚ map_to_list (Column.Attributes c) /\
  ord2 (Column.Attributes c) ≡ₚ map_to_list (Column.Attributes c) /\
  ((size (Column.Attributes c) <= 1)%nat ->
   Column.ToSQL ord1 c = Column.ToSQL ord2 c).
Proof.
  intros Hv H1 H2. repeat split.
  - now apply ToSQL_valid.
  - now apply ToSQL_valid.
  - apply H1.
  - apply H2.
  - intros Hsize. rewrite !ToSQL_valid by assumption.
    now rewrite (RangeOrder_small ord1), (RangeOrder_small ord2).
Qed.

(** C2, the claim as written fails: two admissible visits of the same
    two-entry map give two different texts for the same valid column. *)
Lemma C2_counterexample_attribute_order :
  Go.RangeOrder forwardOrder /\ Go.RangeOrder backwardOrder /\
  Column.Validate attributedColumn = None /\
  @Column.ToSQL exampleStrconv forwardOrder attributedColumn
  = ("x INTEGER a one b 2", None) /\
  @Column.ToSQL exampleStrconv backwardOrder attributedColumn
  = ("x INTEGER b 2 a one", None).
Proof.
  split; [exact forwardOrder_RangeOrder |].
  split; [exact backwardOrder_RangeOrder |].
  repeat split; vm_compute; reflexivity.
Qed.

(** ** Table *)

Ltac right_nest := rewrite ?append_assoc, ?append_nil_r.

Lemma serialized_app (r1 r2 : list (string * option Go.error)) :
  Spec.serialized (r1 ++ r2) = Spec.serialized r1 ++ Spec.serialized r2.
Proof. unfold Spec.serialized. apply omap_app. Qed.

Lemma columnResults_lookup `{Strconv} (ords : nat -> Go.MapOrder) (cols : list Column.t) :
  forall (i j : nat) (col : Column.t),
    cols !! j = Some col ->
    Spec.columnResults ords i cols !! j = Some (Column.ToSQL (ords (i + j)%nat) col).
Proof.
  induction cols as [|c rest IH]; intros i j col Hj; [discriminate |].
  destruct j as [|j]; cbn in *.
  - injection Hj as ->. now rewrite Nat.add_0_r.
  - etransitivity; [exact (IH (S i) j col Hj) |].
    replace (i + S j)%nat with (S i + j)%nat by lia. reflexivity.
Qed.

Lemma columnResults_length `{Strconv} (ords : nat -> Go.MapOrder) (cols : list Column.t) :
  forall i : nat, length (Spec.columnResults ords i cols) = length cols.
Proof. induction cols as [|c rest IH]; intros i; cbn; [reflexivity | now rewrite IH]. Qed.

(** The loop adds the successful texts to [columnDefs] and the errors to
    [errors], both in list order, and never stops early. *)
Lemma columnsLoop_spec `{Strconv} (ords : nat -> Go.MapOrder) (cols : list Column.t) :
  forall (i : nat) (columnDefs : list string) (errors : list Go.error),
    Table.columnsLoop ords i cols columnDefs errors
    = (columnDefs ++ Spec.serialized (Spec.columnResults ords i cols),
       errors ++ Spec.failures (Spec.columnResults ords i cols)).
Proof.
  induction cols as [|col rest IH]; intros i columnDefs errors; cbn.
  - now rewrite !app_nil_r.
  - destruct (Column.ToSQL (ords i) col) as [colSQL [err|]] eqn:Hcol; cbn.
    + rewrite IH. now rewrite <- app_assoc.
    + rewrite IH. now rewrite <- app_assoc.
Qed.

(** C5. For a table with a non-empty name, [ToSQL] calls every column's
    [ToSQL] in list order (no column aborts the loop); the columns that
    succeed give the column definitions and the columns that fail give
    the aggregate errors, both in list order; when no column succeeds the
    error "no valid columns" is added to the aggregate and returned with
    the empty string; when some column succeeds and the aggregate is not
    empty, the empty string and the whole aggregate are returned; the
    statement text is returned only when the aggregate is empty. *)
Theorem C5_Table_ToSQL_aggregates_errors
    (strconv : Strconv) (ords : nat -> Go.MapOrder) (tb : Table.t) :
  Table.Name tb <> "" ->
  length (Spec.columnResults ords 0 (Table.Columns tb)) = length (Table.Columns tb) /\
  (forall (j : nat) (col : Column.t),
     Table.Columns tb !! j = Some col ->
     Spec.columnResults ords 0 (Table.Columns tb) !! j
     = Some (Column.ToSQL (ords j) col) /\
     (Column.ToSQL (ords j) col).2 = Column.Validate col) /\
  Table.columnsLoop ords 0 (Table.Columns tb) [] []
  = (Spec.serialized (Spec.columnResults ords 0 (Table.Columns tb)),
     Spec.failures (Spec.columnResults ords 0 (Table.Columns tb))) /\
  (Spec.serialized (Spec.columnResults ords 0 (Table.Columns tb)) = [] ->
   Table.ToSQL ords tb
   = ("", Spec.failures (Spec.columnResults ords 0 (Table.Columns tb))
          ++ ["no valid columns defined for table " +:+ Table.Name tb])) /\
  (Spec.serialized (Spec.columnResults ords 0 (Table.Columns tb)) <> [] ->
   Spec.failures (Spec.columnResults ords 0 (Table.Columns tb)) <> [] ->
   Table.ToSQL ords tb
   = ("", Spec.failures (Spec.columnResults ords 0 (Table.Columns tb)))) /\
  (Spec.serialized (Spec.columnResults ords 0 (Table.Columns tb)) <> [] ->
   Spec.failures (Spec.columnResults ords 0 (Table.Columns tb)) = [] ->
   Table.ToSQL ords tb
   = (Spec.createTable tb
        (Spec.serialized (Spec.columnResults ords 0 (Table.Columns tb))),
      [])).
Proof.
  intros Hname.
  assert (Hn : String.eqb (Table.Name tb) "" = false) by now apply String.eqb_neq.
  pose proof (columnsLoop_spec ords (Table.Columns tb) 0%nat [] []) as Hloop.
  cbn [app] in Hloop.
  split; [apply columnResults_length |].
  split; [intros j col Hj; split;
          [now apply (columnResults_lookup ords _ 0%nat)
          | apply ToSQL_error_is_Validate] |].
  split; [exact Hloop |].
  unfold Table.ToSQL. cbv zeta. rewrite Hn, Hloop.
  set (defs := Spec.serialized _). set (errs := Spec.failures _).
  repeat split.
  - intros ->. reflexivity.
  - intros Hd He. destruct defs as [|d defs]; [congruence |].
    destruct errs as [|e errs]; [congruence |]. cbn. reflexivity.
  - intros Hd He. destruct defs as [|d defs]; [congruence |]. rewrite He.
    cbn [length Nat.eqb Nat.ltb Nat.leb app]. unfold Spec.createTable, Spec.opt.
    destruct (Go.nonEmpty (Table.Comment tb)); cbn [app Go.Join];
      right_nest; reflexivity.
Qed.

(** ** AlterTable *)

Lemma ToDataTypeString_SetName (col : Column.t) (n : string) (data : DataType) :
  Column.ToDataTypeString (Column.SetName col n) data
  = Column.ToDataTypeString col data.
Proof. destruct col. reflexivity. Qed.

Lemma alterType_SetName (col : Column.t) (u : ColumnUpdate.t) (n : string) :
  Spec.alterType (Column.SetName col n) u = Spec.alterType col u.
Proof.
  unfold Spec.alterType. rewrite !ToDataTypeString_SetName.
  destruct col. reflexivity.
Qed.

(** C3. An operation of kind alter-type, on a column whose update
    descriptor is present, adds to the operation list the text
    [ALTER COLUMN <token of the current type> TYPE <token of the new
    type>]; [AlterColumn] records that kind when the descriptor has no new
    name and a new data type; the statement for a table holding only this
    operation is [ALTER TABLE <table> ] followed by that text; and the text
    does not depend on the column's name. *)
Theorem C3_alter_type_names_type_tokens
    (strconv : Strconv) (ords : nat -> Go.MapOrder)
    (col : Column.t) (u : ColumnUpdate.t) :
  Column.UpdateOptions col = Some u ->
  (forall a : AlterTable.t,
     ColumnUpdate.Name u = "" -> ColumnUpdate.DataType u <> "" ->
     AlterTable.AlterColumn a (Some col)
     = Go.Returns (AlterTable.appendOperation a AlterColumnTypeOp col)) /\
  (forall (i : nat) (rest : list ColumnOperation.t)
          (operationDefs : list string) (errors : list Go.error),
     AlterTable.operationsLoop ords i
       (ColumnOperation.mk AlterColumnTypeOp col :: rest) operationDefs errors
     = AlterTable.operationsLoop ords (S i) rest
         (operationDefs ++ [Spec.alterType col u]) errors) /\
  (forall tableName : string,
     tableName <> "" ->
     AlterTable.ToSQL ords
       (AlterTable.mk tableName [ColumnOperation.mk AlterColumnTypeOp col] "")
     = Go.Returns ("ALTER TABLE " +:+ tableName +:+ " " +:+ Spec.alterType col u, [])) /\
  (forall n : string, Spec.alterType (Column.SetName col n) u = Spec.alterType col u).
Proof.
  intros Hu. repeat split.
  - intros a Hn Hd. unfold AlterTable.AlterColumn. rewrite Hu. cbn.
    apply nonEmpty_false in Hn. apply nonEmpty_true in Hd. now rewrite Hn, Hd.
  - intros i rest operationDefs errors. cbn.
    unfold Column.ToNewDataType. rewrite Hu. reflexivity.
  - intros tableName Hname.
    unfold AlterTable.ToSQL, AlterTable.Validate. cbn.
    apply String.eqb_neq in Hname. rewrite Hname. cbn.
    unfold Column.ToNewDataType. rewrite Hu. cbn.
    unfold Spec.alterType, Column.ToDataType. right_nest. reflexivity.
  - intros n. apply alterType_SetName.
Qed.

(** [AlterTable.ToSQL] forgets the errors its loop collected as soon as one
    operation produced a definition. *)
Lemma AlterTable_ToSQL_discards_errors `{Strconv}
    (ords : nat -> Go.MapOrder) (a : AlterTable.t)
    (operationDefs : list string) (errors : list Go.error) :
  AlterTable.Validate a = [] ->
  AlterTable.operationsLoop ords 0 (AlterTable.Operations a) [] []
  = Go.Returns (operationDefs, errors) ->
  operationDefs <> [] ->
  exists sql, sql <> "" /\ AlterTable.ToSQL ords a = Go.Returns (sql, []).
Proof.
  intros Hv Hloop Hdefs. unfold AlterTable.ToSQL. rewrite Hv. cbn.
  rewrite Hloop. cbn. destruct operationDefs as [|d ds]; [congruence |]. cbn.
  eexists. split; [| reflexivity].
  destruct (Go.nonEmpty (AlterTable.Comment a)); right_nest; discriminate.
Qed.

(** C1, the defect. The add operation's column has no data type, so its
    validation fails and the loop records the error; the drop operation
    still produces a definition, and [AlterTable.ToSQL] returns the
    statement with a nil error slice. *)
Theorem C1_AlterTable_emits_sql_despite_column_error
    (strconv : Strconv) (ords : nat -> Go.MapOrder) :
  Column.Validate (Column.NewColumn "email") = Some "invalid data type: " /\
  AlterTable.operationsLoop ords 0 (AlterTable.Operations mixedAlterTable) [] []
  = Go.Returns (["DROP COLUMN temp_field"], ["invalid data type: "]) /\
  AlterTable.ToSQL ords mixedAlterTable
  = Go.Returns ("ALTER TABLE users DROP COLUMN temp_field", []).
Proof. repeat split; vm_compute; reflexivity. Qed.

(** [AlterColumn] on a column whose update descriptor is present and
    empty: nothing is recorded. *)
Lemma AlterColumn_empty_descriptor (a : AlterTable.t) (c : Column.t)
    (u : ColumnUpdate.t) :
  Column.UpdateOptions c = Some u ->
  ColumnUpdate.Name u = "" -> ColumnUpdate.DataType u = "" ->
  AlterTable.AlterColumn a (Some c) = Go.Returns a.
Proof.
  intros Hu Hn Hd. unfold AlterTable.AlterColumn. rewrite Hu. cbn.
  now rewrite Hn, Hd.
Qed.

(** [AlterColumn] on a column that has no update descriptor. *)
Lemma AlterColumn_nil_descriptor (a : AlterTable.t) (c : Column.t) :
  Column.UpdateOptions c = None -> AlterTable.AlterColumn a (Some c) = Go.Panics.
Proof. intros Hu. unfold AlterTable.AlterColumn. now rewrite Hu. Qed.

(** C4, the defect. A column fresh from [NewColumn] has populated neither
    a new name nor a new data type: its update descriptor is nil, and
    [AlterColumn] dereferences it. *)
Theorem C4_AlterColumn_fresh_column_panics :
  Column.UpdateOptions (Column.NewColumn "ownerId") = None /\
  AlterTable.AlterColumn (AlterTable.NewAlterTable "Account")
    (Some (Column.NewColumn "ownerId")) = Go.Panics.
Proof. split; reflexivity. Qed.

(** ** Index *)

Lemma step_using (idx : Index.t) (c : IndexScript.call) :
  Index.using_ (IndexScript.step idx c) = Index.using_ idx.
Proof. destruct idx, c; reflexivity. Qed.

Lemma step_method (idx : Index.t) (c : IndexScript.call) :
  Index.method (IndexScript.step idx c)
  = match c with
    | IndexScript.SetMethod mth => mth
    | _ => Index.method idx
    end.
Proof. destruct idx, c; reflexivity. Qed.

Lemma fold_step_using (script : list IndexScript.call) :
  forall idx : Index.t,
    Index.using_ (fold_left IndexScript.step script idx) = Index.using_ idx.
Proof.
  induction script as [|c script IH]; intros idx; cbn; [reflexivity |].
  now rewrite IH, step_using.
Qed.

Lemma fold_step_method (script : list IndexScript.call) :
  forall (idx : Index.t) (acc : option string),
    Index.method idx = default "" acc ->
    Index.method (fold_left IndexScript.step script idx)
    = default ""
        (fold_left
           (fun acc c =>
              match c with
              | IndexScript.SetMethod mth => Some mth
              | _ => acc
              end) script acc).
Proof.
  induction script as [|c script IH]; intros idx acc Hacc; cbn; [exact Hacc |].
  apply IH. rewrite step_method. destruct c; try exact Hacc. reflexivity.
Qed.

Lemma lastMethod_none (script : list IndexScript.call) :
  forallb (fun c => negb (IndexScript.isSetMethod c)) script = true ->
  IndexScript.lastMethod script = None.
Proof.
  unfold IndexScript.lastMethod. intros Hall.
  enough (Hacc : forall acc : option string,
             fold_left
               (fun acc c =>
                  match c with
                  | IndexScript.SetMethod mth => Some mth
                  | _ => acc
                  end) script acc = acc) by apply Hacc.
  induction script as [|c script IH]; intros acc; cbn in *; [reflexivity |].
  apply andb_true_iff in Hall as [Hc Hall].
  destruct c; cbn in Hc; try discriminate; now apply IH.
Qed.

(** The text [Index.ToSQL] builds once the required fields are present. *)
Lemma Index_ToSQL_text (idx : Index.t) :
  Index.name idx <> "" -> Index.table idx <> "" -> Index.columns idx <> [] ->
  Index.ToSQL idx
  = (Spec.createIndex
       (Spec.opt (Go.nonEmpty (Index.method idx)) (" USING " +:+ Index.method idx))
       idx,
     None).
Proof.
  intros Hn Ht Hc. unfold Index.ToSQL.
  apply String.eqb_neq in Hn. apply String.eqb_neq in Ht. rewrite Hn, Ht.
  destruct (Index.columns idx) as [|c0 cs] eqn:Hcols; [congruence |].
  cbn [length Nat.eqb]. cbv zeta. f_equal.
  unfold Spec.createIndex, Spec.qualified, Spec.opt. rewrite Hcols.
  destruct (Index.unique idx), (Index.concurrently idx),
    (Go.nonEmpty (Index.schema idx)), (Go.nonEmpty (Index.method idx)),
    (0 <? length (Index.includeColumns idx))%nat,
    (Go.nonEmpty (Index.where_ idx)),
    (0 <? length (Index.withOptions idx))%nat,
    (Go.nonEmpty (Index.tablespace idx));
    right_nest; reflexivity.
Qed.

(** C8. An index built by [NewIndex] and any setter calls keeps "btree"
    in the field [using], which [ToSQL] never reads; its field [method]
    holds the argument of the last [SetMethod] call, and is empty when
    [SetMethod] was never called; the statement carries the clause
    [ USING <method>] between the table and the column list exactly when
    that last argument exists and is not empty, and carries no USING
    clause when [SetMethod] was never called. *)
Theorem C8_USING_only_for_explicit_method
    (nm : string) (script : list IndexScript.call) :
  Index.using_ (IndexScript.run nm script) = "btree" /\
  Index.method (IndexScript.run nm script)
  = default "" (IndexScript.lastMethod script) /\
  (Index.name (IndexScript.run nm script) <> "" ->
   Index.table (IndexScript.run nm script) <> "" ->
   Index.columns (IndexScript.run nm script) <> [] ->
   Index.ToSQL (IndexScript.run nm script)
   = (Spec.createIndex (Spec.usingClause (IndexScript.lastMethod script))
        (IndexScript.run nm script),
      None)) /\
  (forallb (fun c => negb (IndexScript.isSetMethod c)) script = true ->
   Index.method (IndexScript.run nm script) = "" /\
   Spec.usingClause (IndexScript.lastMethod script) = "") /\
  (forall mth : string,
     IndexScript.lastMethod script = Some mth -> mth <> "" ->
     Spec.usingClause (IndexScript.lastMethod script) = " USING " +:+ mth) /\
  (IndexScript.lastMethod script = Some "" ->
   Spec.usingClause (IndexScript.lastMethod script) = "").
Proof.
  assert (Hm : Index.method (IndexScript.run nm script)
               = default "" (IndexScript.lastMethod script)).
  { unfold IndexScript.run, IndexScript.lastMethod.
    now apply fold_step_method. }
  repeat split.
  - unfold IndexScript.run. now rewrite fold_step_using.
  - exact Hm.
  - intros Hn Ht Hc. rewrite Index_ToSQL_text by assumption. rewrite Hm.
    destruct (IndexScript.lastMethod script) as [mth|]; reflexivity.
  - rewrite Hm, (lastMethod_none script) by assumption. reflexivity.
  - now rewrite (lastMethod_none script) by assumption.
  - intros mth -> Hne. cbn. apply nonEmpty_true in Hne. now rewrite Hne.
  - intros ->. reflexivity.
Qed.

(** ** DropIndex *)

Lemma DropIndex_step_exclusive (di : DropIndex.t) (c : DropIndexScript.call) :
  DropIndex.cascade di && DropIndex.restrict di = false ->
  DropIndex.cascade (DropIndexScript.step di c)
  && DropIndex.restrict (DropIndexScript.step di c) = false.
Proof. destruct c; cbn; intros H; try exact H; reflexivity. Qed.

Lemma DropIndex_fold_exclusive (script : list DropIndexScript.call) :
  forall di : DropIndex.t,
    DropIndex.cascade di && DropIndex.restrict di = false ->
    DropIndex.cascade (fold_left DropIndexScript.step script di)
    && DropIndex.restrict (fold_left DropIndexScript.step script di) = false.
Proof.
  induction script as [|c script IH]; intros di H; cbn; [exact H |].
  apply IH. now apply DropIndex_step_exclusive.
Qed.

(** Whatever the flags, [ToSQL] writes at most one of the two words: the
    test of [restrict] sits in the [else] branch of the test of [cascade]. *)
Lemma DropIndex_ToSQL_text (di : DropIndex.t) :
  DropIndex.name di <> "" ->
  DropIndex.ToSQL di
  = ("DROP INDEX " +:+ Spec.opt (DropIndex.concurrently di) "CONCURRENTLY "
     +:+ Spec.opt (DropIndex.ifExists di) "IF EXISTS "
     +:+ Spec.qualified (DropIndex.schema di) (DropIndex.name di)
     +:+ (if DropIndex.cascade di then " CASCADE"
          else if DropIndex.restrict di then " RESTRICT" else ""),
     None).
Proof.
  intros Hn. unfold DropIndex.ToSQL. apply String.eqb_neq in Hn. rewrite Hn.
  cbv zeta. f_equal. unfold Spec.qualified, Spec.opt.
  destruct (DropIndex.concurrently di), (DropIndex.ifExists di),
    (Go.nonEmpty (DropIndex.schema di)), (DropIndex.cascade di),
    (DropIndex.restrict di); right_nest; reflexivity.
Qed.

(** C9. A DropIndex built by [NewDropIndex] and any setter calls never
    has both [cascade] and [restrict] set; with a non-empty name its
    statement is [DROP INDEX [CONCURRENTLY] [IF EXISTS] [<schema>.]<name>
    [CASCADE|RESTRICT]] in this order, and the text after the name is
    empty, [ CASCADE] or [ RESTRICT], never both words. *)
Theorem C9_DropIndex_clause_order
    (nm : string) (script : list DropIndexScript.call) :
  DropIndex.cascade (DropIndexScript.run nm script)
  && DropIndex.restrict (DropIndexScript.run nm script) = false /\
  (DropIndex.name (DropIndexScript.run nm script) <> "" ->
   DropIndex.ToSQL (DropIndexScript.run nm script)
   = (Spec.dropIndex (DropIndexScript.run nm script), None)) /\
  In (Spec.opt (DropIndex.cascade (DropIndexScript.run nm script)) " CASCADE"
      +:+ Spec.opt (DropIndex.restrict (DropIndexScript.run nm script)) " RESTRICT")
     [""; " CASCADE"; " RESTRICT"].
Proof.
  assert (Hex : DropIndex.cascade (DropIndexScript.run nm script)
                && DropIndex.restrict (DropIndexScript.run nm script) = false).
  { unfold DropIndexScript.run. now apply DropIndex_fold_exclusive. }
  split; [exact Hex |]. split.
  - intros Hn. rewrite DropIndex_ToSQL_text by assumption.
    unfold Spec.dropIndex, Spec.opt.
    destruct (DropIndex.cascade _), (DropIndex.restrict _);
      try discriminate; reflexivity.
  - unfold Spec.opt.
    destruct (DropIndex.cascade _), (DropIndex.restrict _);
      try discriminate; cbn; auto.
Qed.

(** ** SetIndexTablespace *)

Lemma SetIndexTablespace_ToSQL_cases (sit : SetIndexTablespace.t) :
  SetIndexTablespace.ToSQL sit
  = if String.eqb (SetIndexTablespace.indexName sit) "" then
      ("", Some "index name is required")
    else if String.eqb (SetIndexTablespace.tablespace sit) "" then
      ("", Some "tablespace name is required")
    else (Spec.setIndexTablespace sit, None).
Proof.
  unfold SetIndexTablespace.ToSQL.
  destruct (String.eqb _ ""); [reflexivity |].
  destruct (String.eqb _ ""); [reflexivity |].
  cbv zeta. f_equal. unfold Spec.setIndexTablespace, Spec.qualified, Spec.opt.
  destruct (Go.nonEmpty _), (SetIndexTablespace.nowait sit);
    right_nest; reflexivity.
Qed.

(** C10. [SetIndexTablespace.ToSQL] returns an error exactly when the
    index name or the tablespace is empty, and then the text is empty;
    otherwise it returns [ALTER INDEX [<schema>.]<name> SET TABLESPACE
    <tablespace>], followed by [ NOWAIT] exactly when the flag is set,
    and no error. *)
Theorem C10_SetIndexTablespace_ToSQL (sit : SetIndexTablespace.t) :
  ((exists err, (SetIndexTablespace.ToSQL sit).2 = Some err) <->
   SetIndexTablespace.indexName sit = "" \/ SetIndexTablespace.tablespace sit = "") /\
  (forall err : Go.error,
     (SetIndexTablespace.ToSQL sit).2 = Some err ->
     (SetIndexTablespace.ToSQL sit).1 = "") /\
  (SetIndexTablespace.indexName sit <> "" ->
   SetIndexTablespace.tablespace sit <> "" ->
   SetIndexTablespace.ToSQL sit = (Spec.setIndexTablespace sit, None)) /\
  (SetIndexTablespace.nowait sit = true ->
   Spec.setIndexTablespace sit
   = "ALTER INDEX "
     +:+ Spec.qualified (SetIndexTablespace.schema sit)
           (SetIndexTablespace.indexName sit)
     +:+ " SET TABLESPACE " +:+ SetIndexTablespace.tablespace sit +:+ " NOWAIT") /\
  (SetIndexTablespace.nowait sit = false ->
   Spec.setIndexTablespace sit
   = "ALTER INDEX "
     +:+ Spec.qualified (SetIndexTablespace.schema sit)
           (SetIndexTablespace.indexName sit)
     +:+ " SET TABLESPACE " +:+ SetIndexTablespace.tablespace sit).
Proof.
  rewrite SetIndexTablespace_ToSQL_cases.
  assert (Hw1 : SetIndexTablespace.nowait sit = true ->
                Spec.setIndexTablespace sit
                = "ALTER INDEX "
                  +:+ Spec.qualified (SetIndexTablespace.schema sit)
                        (SetIndexTablespace.indexName sit)
                  +:+ " SET TABLESPACE " +:+ SetIndexTablespace.tablespace sit
                  +:+ " NOWAIT").
  { intros Hw. unfold Spec.setIndexTablespace. now rewrite Hw. }
  assert (Hw0 : SetIndexTablespace.nowait sit = false ->
                Spec.setIndexTablespace sit
                = "ALTER INDEX "
                  +:+ Spec.qualified (SetIndexTablespace.schema sit)
                        (SetIndexTablespace.indexName sit)
                  +:+ " SET TABLESPACE " +:+ SetIndexTablespace.tablespace sit).
  { intros Hw. unfold Spec.setIndexTablespace. rewrite Hw. cbn.
    now right_nest. }
  destruct (String.eqb_spec (SetIndexTablespace.indexName sit) "") as [Hn | Hn];
    [| destruct (String.eqb_spec (SetIndexTablespace.tablespace sit) "") as [Ht | Ht]];
    cbn [fst snd].
  - split; [split; [intros _; now left | intros _; now eexists] |].
    split; [reflexivity |]. split; [intros Hne; now destruct Hne |]. now split.
  - split; [split; [intros _; now right | intros _; now eexists] |].
    split; [reflexivity |]. split; [intros _ Hne; now destruct Hne |]. now split.
  - split; [split; [intros [err Herr]; discriminate | intros [H | H]; contradiction] |].
    split; [intros err Herr; discriminate |]. split; [reflexivity |]. now split.
Qed.

(** ** Errors and emitted text, entity by entity

    Every entity but AlterTable returns the empty string whenever it
    returns an error. *)

Lemma Column_error_no_sql `{Strconv} (ord : Go.MapOrder) (c : Column.t)
    (sql : string) (err : Go.error) :
  Column.ToSQL ord c = (sql, Some err) -> sql = "".
Proof.
  unfold Column.ToSQL. destruct (Column.Validate c); intros Heq; congruence.
Qed.

Lemma Table_error_no_sql `{Strconv} (ords : nat -> Go.MapOrder) (tb : Table.t)
    (sql : string) (e : Go.error) (errors : list Go.error) :
  Table.ToSQL ords tb = (sql, e :: errors) -> sql = "".
Proof.
  unfold Table.ToSQL. cbv zeta.
  destruct (String.eqb (Table.Name tb) ""); [congruence |].
  destruct (Table.columnsLoop _ _ _ _ _) as [columnDefs errs].
  destruct (length columnDefs =? 0)%nat; [congruence |].
  destruct (0 <? length errs)%nat; congruence.
Qed.

Lemma DropTable_error_no_sql (d : DropTable.t) (sql : string) (err : Go.error) :
  DropTable.ToSQL d = (sql, Some err) -> sql = "".
Proof.
  unfold DropTable.ToSQL. destruct (String.eqb (DropTable.Name d) ""); congruence.
Qed.

Lemma Index_error_no_sql (idx : Index.t) (sql : string) (err : Go.error) :
  Index.ToSQL idx = (sql, Some err) -> sql = "".
Proof.
  unfold Index.ToSQL.
  destruct (String.eqb (Index.name idx) ""); [congruence |].
  destruct (String.eqb (Index.table idx) ""); [congruence |].
  destruct (length (Index.columns idx) =? 0)%nat; congruence.
Qed.

Lemma DropIndex_error_no_sql (di : DropIndex.t) (sql : string) (err : Go.error) :
  DropIndex.ToSQL di = (sql, Some err) -> sql = "".
Proof.
  unfold DropIndex.ToSQL. destruct (String.eqb (DropIndex.name di) ""); congruence.
Qed.

Lemma RenameIndex_error_no_sql (ri : RenameIndex.t) (sql : string) (err : Go.error) :
  RenameIndex.ToSQL ri = (sql, Some err) -> sql = "".
Proof.
  unfold RenameIndex.ToSQL. destruct (_ || _); congruence.
Qed.

Lemma ReindexOperation_error_no_sql (ro : ReindexOperation.t)
    (sql : string) (err : Go.error) :
  ReindexOperation.ToSQL ro = (sql, Some err) -> sql = "".
Proof.
  unfold ReindexOperation.ToSQL.
  destruct (String.eqb (ReindexOperation.target ro) ""); [congruence |].
  destruct (_ && _); congruence.
Qed.

Lemma SetIndexTablespace_error_no_sql (sit : SetIndexTablespace.t)
    (sql : string) (err : Go.error) :
  SetIndexTablespace.ToSQL sit = (sql, Some err) -> sql = "".
Proof.
  rewrite SetIndexTablespace_ToSQL_cases.
  destruct (String.eqb _ ""); [congruence |].
  destruct (String.eqb _ ""); congruence.
Qed.

(** ** The scenarios of the repository's tests *)

Example test_column_serial_primary_key :
  @Column.ToSQL exampleStrconv forwardOrder
    (Column.SetPrimaryKey (Column.SetDataType (Column.NewColumn "id") SerialType))
  = ("id SERIAL PRIMARY KEY", None).
Proof. vm_compute. reflexivity. Qed.

Example test_column_not_null_and_default :
  @Column.ToSQL exampleStrconv forwardOrder
    (Column.SetDefault
       (Column.SetNotNull (Column.SetDataType (Column.NewColumn "x") StringType)) "a")
  = ("", Some "column cannot be both NOT NULL and have a DEFAULT value").
Proof. vm_compute. reflexivity. Qed.

Example test_basic_table :
  @Table.ToSQL exampleStrconv (fun _ => forwardOrder) basicTable
  = ("CREATE TABLE users (id SERIAL PRIMARY KEY, name VARCHAR(50))", []).
Proof. vm_compute. reflexivity. Qed.

Example test_table_without_columns :
  @Table.ToSQL exampleStrconv (fun _ => forwardOrder) (Table.NewTable "empty_table")
  = ("", ["no valid columns defined for table empty_table"]).
Proof. vm_compute. reflexivity. Qed.

Example test_alter_table_multiple_operations :
  (a <- AlterTable.AlterColumn
          (AlterTable.DropColumn
             (AlterTable.AddColumn (AlterTable.NewAlterTable "products")
                (Some (Column.SetNotNull
                         (Column.SetDataType (Column.NewColumn "category_id")
                            IntegerType))))
             (Some (Column.NewColumn "old_category")))
          (Some (Column.SetNewName (Column.NewColumn "desc") "description")) ;;
   @AlterTable.ToSQL exampleStrconv (fun _ => forwardOrder) a)
  = Go.Returns
      ("ALTER TABLE products ADD COLUMN category_id INTEGER NOT NULL, "
       +:+ "DROP COLUMN old_category, RENAME COLUMN desc TO description", []).
Proof. vm_compute. reflexivity. Qed.

Example test_unique_index :
  Index.ToSQL
    (IndexScript.run "i"
       [IndexScript.OnTable "t"; IndexScript.AddColumn "c"; IndexScript.SetUnique])
  = ("CREATE UNIQUE INDEX i ON t (c)", None).
Proof. vm_compute. reflexivity. Qed.

Example test_index_with_method :
  Index.ToSQL
    (IndexScript.run "i"
       [IndexScript.OnTable "t"; IndexScript.AddColumn "c"; IndexScript.SetMethod "hash"])
  = ("CREATE INDEX i ON t USING hash (c)", None).
Proof. vm_compute. reflexivity. Qed.

Example test_drop_index_clause_order :
  DropIndex.ToSQL
    (DropIndexScript.run "i"
       [DropIndexScript.SetConcurrently; DropIndexScript.SetCascade;
        DropIndexScript.SetIfExists; DropIndexScript.SetSchema "s"])
  = ("DROP INDEX CONCURRENTLY IF EXISTS s.i CASCADE", None).
Proof. vm_compute. reflexivity. Qed.

Example test_set_index_tablespace_nowait :
  SetIndexTablespace.ToSQL
    (SetIndexTablespace.SetNowait
       (SetIndexTablespace.NewSetIndexTablespace "i" "fast"))
  = ("ALTER INDEX i SET TABLESPACE fast NOWAIT", None).
Proof. vm_compute. reflexivity. Qed.

(** ** Instances of the theorems that carry hypotheses *)

Lemma C2_single_attribute_instance :
  Column.Validate singleAttributeColumn = None /\
  Go.RangeOrder forwardOrder /\ Go.RangeOrder backwardOrder /\
  (size (Column.Attributes singleAttributeColumn) <= 1)%nat /\
  @Column.ToSQL exampleStrconv forwardOrder singleAttributeColumn
  = @Column.ToSQL exampleStrconv backwardOrder singleAttributeColumn.
Proof.
  assert (Hv : Column.Validate singleAttributeColumn = None)
    by (vm_compute; reflexivity).
  assert (Hs : (size (Column.Attributes singleAttributeColumn) <= 1)%nat)
    by (vm_compute; lia).
  split; [exact Hv |].
  split; [exact forwardOrder_RangeOrder |].
  split; [exact backwardOrder_RangeOrder |].
  split; [exact Hs |].
  apply (C2_ToSQL_deterministic_up_to_attribute_order exampleStrconv
           singleAttributeColumn forwardOrder backwardOrder Hv
           forwardOrder_RangeOrder backwardOrder_RangeOrder).
  exact Hs.
Defined.

Lemma C3_repository_test_instance :
  Column.UpdateOptions retypedColumn = Some (ColumnUpdate.mk "" StringType) /\
  @AlterTable.ToSQL exampleStrconv (fun _ => forwardOrder)
    (AlterTable.mk "Account"
       [ColumnOperation.mk AlterColumnTypeOp retypedColumn] "")
  = Go.Returns ("ALTER TABLE Account ALTER COLUMN INTEGER TYPE VARCHAR", []).
Proof.
  split; [reflexivity |].
  destruct (C3_alter_type_names_type_tokens exampleStrconv (fun _ => forwardOrder)
              retypedColumn (ColumnUpdate.mk "" StringType) eq_refl)
    as (_ & _ & Hsql & _).
  rewrite (Hsql "Account") by discriminate.
  vm_compute. reflexivity.
Defined.

Lemma C5_mixed_table_instance :
  Table.Name mixedTable <> "" /\
  @Table.ToSQL exampleStrconv (fun _ => forwardOrder) mixedTable
  = ("", ["invalid data type: "]).
Proof.
  assert (Hn : Table.Name mixedTable <> "") by discriminate.
  split; [exact Hn |].
  destruct (C5_Table_ToSQL_aggregates_errors exampleStrconv
              (fun _ => forwardOrder) mixedTable Hn)
    as (_ & _ & _ & _ & Herr & _).
  rewrite Herr; [vm_compute; reflexivity | vm_compute; discriminate
                | vm_compute; discriminate].
Defined.

(** * Further properties of the package *)

(** ** Column: the order of the clauses *)

Ltac builder_shape x e Hx :=
  lazymatch e with
  | (if ?c then (if ?q then ?p +:+ ?a else ?p +:+ ?b) else ?p) =>
      assert (Hx : x = p +:+ Spec.opt c (if q then a else b))
        by (unfold x, Spec.opt; destruct c, q; rewrite ?append_nil_r; reflexivity)
  | (if ?c then ?p +:+ ?t else ?p) =>
      assert (Hx : x = p +:+ Spec.opt c t)
        by (unfold x, Spec.opt; destruct c; rewrite ?append_nil_r; reflexivity)
  | _ => assert (Hx : x = e) by reflexivity
  end.

Ltac builder_step :=
  lazymatch goal with
  | |- (let y := ?e in @?body y) = ?R =>
      let x := fresh "b" in
      let Hx := fresh "Hb" in
      pose (x := e);
      let g := eval cbv beta in (body x) in
      change (g = R);
      builder_shape x e Hx;
      clearbody x
  end.

Ltac builder_step_as shape tac :=
  lazymatch goal with
  | |- (let y := ?e in @?body y) = ?R =>
      let x := fresh "b" in
      let Hx := fresh "Hb" in
      pose (x := e);
      let g := eval cbv beta in (body x) in
      change (g = R);
      assert (Hx : x = shape) by (unfold x; tac);
      clearbody x
  end.

Ltac builder_unwind :=
  repeat match goal with
         | Hx : ?x = _ |- _ => is_var x; rewrite Hx; clear Hx; clear x
         end.

(** The successive writes to the builder amount to the clauses in their
    fixed order. *)
Lemma writeClauses_columnClauses `{Strconv} (c : Column.t) :
  Column.writeClauses c = Spec.columnClauses c.
Proof.
  cbv delta [Column.writeClauses]. cbv beta.
  do 5 builder_step.
  lazymatch goal with
  | |- (let y := (if _ then _ else ?p) in _) = _ =>
      builder_step_as
        (p +:+ Spec.opt (Column.AutoNumber c)
                 (" AUTOINCREMENT"
                  +:+ Spec.opt (0 <? Column.AutoNumberStart c)
                        (" START WITH " +:+ Go.fmt_d (Column.AutoNumberStart c))
                  +:+ Spec.opt (Go.nonEmpty (Column.AutoNumberPrefix c))
                        (" PREFIX '" +:+ Column.AutoNumberPrefix c +:+ "'")))
        ltac:(unfold Spec.opt; destruct (Column.AutoNumber c);
              [cbv zeta;
               destruct (0 <? Column.AutoNumberStart c),
                 (Go.nonEmpty (Column.AutoNumberPrefix c));
               rewrite ?append_assoc, ?append_nil_r; reflexivity
              | now rewrite append_nil_r])
  end.
  do 11 builder_step.
  builder_unwind.
  unfold Spec.columnClauses. rewrite ?append_assoc. reflexivity.
Qed.

Lemma recognized_nonEmpty (dt : DataType) :
  Spec.recognized dt -> Go.nonEmpty dt = true.
Proof.
  intros Hin. apply nonEmpty_true. intros ->.
  cbn in Hin. repeat (destruct Hin as [Hin | Hin]; [discriminate |]). destruct Hin.
Qed.

Lemma Validate_recognized (c : Column.t) :
  Column.Validate c = None -> Spec.recognized (Column.DataType c).
Proof.
  intros Hv. apply validDataTypes_recognized.
  unfold Column.Validate in Hv.
  destruct (default false (Column.validDataTypes !! Column.DataType c));
    [reflexivity | discriminate].
Qed.

(** X1. For a valid column, the text of [ToSQL] is the column's clauses in
    the fixed order name, type token, PRIMARY KEY, auto-increment, NOT
    NULL, UNIQUE, default, CHECK, REFERENCES, GENERATED, COLLATE, COMMENT,
    STORAGE, COMPRESSION, IDENTITY, each optional clause present exactly
    when its field is set, followed by the attribute clauses; in
    particular the text starts with the name, a space and the type
    token. *)
Theorem X1_Column_ToSQL_clause_order
    (strconv : Strconv) (ord : Go.MapOrder) (c : Column.t) :
  Column.Validate c = None ->
  Column.ToSQL ord c
  = (Spec.columnClauses c +:+ Spec.attributeClauses (ord (Column.Attributes c)),
     None) /\
  exists rest : string,
    (Column.ToSQL ord c).1
    = Column.Name c +:+ " " +:+ Column.ToDataType c +:+ rest.
Proof.
  intros Hv.
  assert (Hsql : Column.ToSQL ord c
                 = (Spec.columnClauses c
                    +:+ Spec.attributeClauses (ord (Column.Attributes c)), None)).
  { rewrite ToSQL_valid by assumption. now rewrite writeClauses_columnClauses. }
  split; [exact Hsql |].
  rewrite Hsql. cbn [fst]. unfold Spec.columnClauses.
  rewrite (recognized_nonEmpty _ (Validate_recognized c Hv)).
  cbn [Spec.opt]. unfold Column.ToDataType.
  eexists. rewrite !append_assoc. reflexivity.
Qed.

(** ** Every single-error [ToSQL] returns either a text or an error *)

Lemma append_space_nonEmpty (a r : string) : a +:+ " " +:+ r <> "".
Proof. destruct a; discriminate. Qed.

Lemma Column_text_or_error `{Strconv} (ord : Go.MapOrder) (c : Column.t) :
  (Column.ToSQL ord c).1 = "" <-> exists err, (Column.ToSQL ord c).2 = Some err.
Proof.
  destruct (Column.Validate c) as [err|] eqn:Hv.
  - rewrite (ToSQL_invalid ord c err Hv). cbn. split; [now eexists | reflexivity].
  - rewrite ToSQL_valid, writeClauses_columnClauses by assumption. cbn [fst snd].
    split; [| intros [err Herr]; discriminate].
    unfold Spec.columnClauses. rewrite !append_assoc.
    intros Hempty. now apply append_space_nonEmpty in Hempty.
Qed.

Lemma DropTable_ToSQL_cases (d : DropTable.t) :
  DropTable.ToSQL d
  = if String.eqb (DropTable.Name d) "" then ("", Some "table name cannot be empty")
    else ("DROP TABLE IF EXISTS " +:+ DropTable.Name d
          +:+ Spec.opt (DropTable.Cascade d) " CASCADE", None).
Proof.
  unfold DropTable.ToSQL, Spec.opt.
  destruct (String.eqb _ ""); [reflexivity |].
  destruct (DropTable.Cascade d); rewrite ?append_assoc, ?append_nil_r; reflexivity.
Qed.

Lemma RenameIndex_ToSQL_cases (ri : RenameIndex.t) :
  RenameIndex.ToSQL ri
  = if String.eqb (RenameIndex.oldName ri) "" || String.eqb (RenameIndex.newName ri) ""
    then ("", Some "both old and new index names are required")
    else ("ALTER INDEX "
          +:+ Spec.qualified (RenameIndex.schema ri) (RenameIndex.oldName ri)
          +:+ " RENAME TO " +:+ RenameIndex.newName ri, None).
Proof.
  unfold RenameIndex.ToSQL, Spec.qualified, Spec.opt.
  destruct (_ || _); [reflexivity |].
  destruct (Go.nonEmpty _); rewrite ?append_assoc; reflexivity.
Qed.

Lemma ReindexOperation_ToSQL_cases (ro : ReindexOperation.t) :
  ReindexOperation.ToSQL ro
  = if String.eqb (ReindexOperation.target ro) "" then
      ("", Some "reindex target is required")
    else if String.eqb (ReindexOperation.name ro) ""
            && negb (String.eqb (ReindexOperation.target ro) "SYSTEM")
            && negb (String.eqb (ReindexOperation.target ro) "DATABASE") then
      ("", Some ("name is required for REINDEX " +:+ ReindexOperation.target ro))
    else ("REINDEX " +:+ Spec.opt (ReindexOperation.concurrently ro) "CONCURRENTLY "
          +:+ ReindexOperation.target ro
          +:+ Spec.opt (Go.nonEmpty (ReindexOperation.name ro))
                (" " +:+ ReindexOperation.name ro), None).
Proof.
  unfold ReindexOperation.ToSQL, Spec.opt.
  destruct (String.eqb _ ""); [reflexivity |].
  destruct (_ && _); [reflexivity |].
  destruct (ReindexOperation.concurrently ro), (Go.nonEmpty _);
    rewrite ?append_assoc, ?append_nil_r; reflexivity.
Qed.

Lemma Index_ToSQL_cases (idx : Index.t) :
  Index.ToSQL idx
  = if String.eqb (Index.name idx) "" then ("", Some "index name is required")
    else if String.eqb (Index.table idx) "" then ("", Some "table name is required")
    else if (length (Index.columns idx) =? 0)%nat then
      ("", Some "at least one column is required for an index")
    else (Spec.createIndex
            (Spec.opt (Go.nonEmpty (Index.method idx))
               (" USING " +:+ Index.method idx)) idx, None).
Proof.
  destruct (String.eqb_spec (Index.name idx) "") as [Hn | Hn];
    [unfold Index.ToSQL; apply String.eqb_eq in Hn; now rewrite Hn |].
  destruct (String.eqb_spec (Index.table idx) "") as [Ht | Ht];
    [unfold Index.ToSQL; apply String.eqb_neq in Hn; apply String.eqb_eq in Ht;
     now rewrite Hn, Ht |].
  destruct (Index.columns idx) as [|c0 cs] eqn:Hc.
  - unfold Index.ToSQL. apply String.eqb_neq in Hn. apply String.eqb_neq in Ht.
    now rewrite Hn, Ht, Hc.
  - cbn [length Nat.eqb]. apply Index_ToSQL_text; [assumption .. |].
    rewrite Hc. discriminate.
Qed.

(** X2. Each [ToSQL] that returns a single error returns exactly one of
    the two: a non-empty text with a nil error, or the empty text with an
    error. This holds for Column, DropTable, Index, DropIndex,
    RenameIndex, ReindexOperation and SetIndexTablespace, so a caller may
    test either component. *)
Theorem X2_single_error_ToSQL_text_or_error (strconv : Strconv) :
  (forall (ord : Go.MapOrder) (c : Column.t),
     (Column.ToSQL ord c).1 = "" <-> exists err, (Column.ToSQL ord c).2 = Some err) /\
  (forall d : DropTable.t,
     (DropTable.ToSQL d).1 = "" <-> exists err, (DropTable.ToSQL d).2 = Some err) /\
  (forall idx : Index.t,
     (Index.ToSQL idx).1 = "" <-> exists err, (Index.ToSQL idx).2 = Some err) /\
  (forall di : DropIndex.t,
     (DropIndex.ToSQL di).1 = "" <-> exists err, (DropIndex.ToSQL di).2 = Some err) /\
  (forall ri : RenameIndex.t,
     (RenameIndex.ToSQL ri).1 = "" <-> exists err, (RenameIndex.ToSQL ri).2 = Some err) /\
  (forall ro : ReindexOperation.t,
     (ReindexOperation.ToSQL ro).1 = ""
     <-> exists err, (ReindexOperation.ToSQL ro).2 = Some err) /\
  (forall sit : SetIndexTablespace.t,
     (SetIndexTablespace.ToSQL sit).1 = ""
     <-> exists err, (SetIndexTablespace.ToSQL sit).2 = Some err).
Proof.
  split; [intros ord c; apply Column_text_or_error |].
  split.
  { intros d. rewrite DropTable_ToSQL_cases. destruct (String.eqb _ ""); cbn.
    - split; [now eexists | reflexivity].
    - split; [discriminate | intros [err Herr]; discriminate]. }
  split.
  { intros idx. rewrite Index_ToSQL_cases.
    destruct (String.eqb _ ""); [cbn; split; [now eexists | reflexivity] |].
    destruct (String.eqb _ ""); [cbn; split; [now eexists | reflexivity] |].
    destruct (_ =? _)%nat; [cbn; split; [now eexists | reflexivity] |].
    cbn [fst snd]. split; [discriminate | intros [err Herr]; discriminate]. }
  split.
  { intros di. destruct (String.eqb_spec (DropIndex.name di) "") as [Hn | Hn].
    - unfold DropIndex.ToSQL. apply String.eqb_eq in Hn. rewrite Hn. cbn.
      split; [now eexists | reflexivity].
    - rewrite DropIndex_ToSQL_text by assumption. cbn [fst snd].
      split; [discriminate | intros [err Herr]; discriminate]. }
  split.
  { intros ri. rewrite RenameIndex_ToSQL_cases. destruct (_ || _); cbn.
    - split; [now eexists | reflexivity].
    - split; [discriminate | intros [err Herr]; discriminate]. }
  split.
  { intros ro. rewrite ReindexOperation_ToSQL_cases.
    destruct (String.eqb _ ""); [cbn; split; [now eexists | reflexivity] |].
    destruct (_ && _); [cbn; split; [now eexists | reflexivity] |].
    cbn [fst snd]. split; [discriminate | intros [err Herr]; discriminate]. }
  intros sit. rewrite SetIndexTablespace_ToSQL_cases.
  destruct (String.eqb _ ""); [cbn; split; [now eexists | reflexivity] |].
  destruct (String.eqb _ ""); [cbn; split; [now eexists | reflexivity] |].
  cbn [fst snd]. split; [discriminate | intros [err Herr]; discriminate].
Qed.

(** ** Column: data types, references and defaults *)

Lemma Validate_bare_column (n : string) (dt : DataType) :
  Column.Validate (Column.SetDataType (Column.NewColumn n) dt)
  = if default false (Column.validDataTypes !! dt) then None
    else Some ("invalid data type: " +:+ dt).
Proof.
  unfold Column.Validate. cbn -[Column.validDataTypes].
  destruct (default false (Column.validDataTypes !! dt)); reflexivity.
Qed.

(** X3. [IsValidDataType] (a [switch]) and the map [validDataTypes]
    consulted by [Validate] accept the same data types: a column that has
    only a name and a data type passes [Validate] exactly when
    [IsValidDataType] accepts the type, and is otherwise rejected with the
    invalid-data-type error. *)
Theorem X3_IsValidDataType_agrees_with_Validate (n : string) (dt : DataType) :
  Column.IsValidDataType dt = default false (Column.validDataTypes !! dt) /\
  (Column.IsValidDataType dt = true <->
   Column.Validate (Column.SetDataType (Column.NewColumn n) dt) = None) /\
  (Column.IsValidDataType dt = false <->
   Column.Validate (Column.SetDataType (Column.NewColumn n) dt)
   = Some ("invalid data type: " +:+ dt)).
Proof.
  assert (Heq : Column.IsValidDataType dt
                = default false (Column.validDataTypes !! dt)).
  { pose proof (IsValidDataType_recognized dt) as H1.
    pose proof (validDataTypes_recognized dt) as H2.
    destruct (Column.IsValidDataType dt),
      (default false (Column.validDataTypes !! dt)); try reflexivity.
    - exfalso. assert (false = true) by tauto. discriminate.
    - exfalso. assert (false = true) by tauto. discriminate. }
  split; [exact Heq |].
  rewrite Validate_bare_column, Heq.
  destruct (default false (Column.validDataTypes !! dt)); split; split;
    intros Hx; try reflexivity; discriminate.
Qed.

Lemma Contains_parenthesis (table rest : string) :
  Go.Contains (table +:+ "(" +:+ rest) "(" = true.
Proof. apply Contains_iff. now exists table, rest. Qed.

Lemma Validate_SetReferencesText (c : Column.t) (r : string) :
  Go.nonEmpty r && negb (Go.Contains r "(") = false ->
  Column.Validate (Column.SetReferencesText c r)
  = Column.Validate (Column.SetReferencesText c "").
Proof.
  intros Hr. destruct c. unfold Column.Validate. cbn. rewrite Hr. reflexivity.
Qed.

(** X4. A foreign-key reference stored by [SetReferences] or by
    [SetReferencesOnDeleteCascade] always has the form that rule (f)
    accepts, whatever the table and column texts: the verdict of
    [Validate] is the one the column gets with no reference at all, so
    these setters never cause the foreign-key format error. *)
Theorem X4_SetReferences_passes_reference_rule
    (c : Column.t) (table column : string) :
  Column.References (Column.SetReferences c table column)
  = table +:+ "(" +:+ column +:+ ")" /\
  Column.References (Column.SetReferencesOnDeleteCascade c table column)
  = table +:+ "(" +:+ column +:+ ") ON DELETE CASCADE" /\
  Column.Validate (Column.SetReferences c table column)
  = Column.Validate (Column.SetReferencesText c "") /\
  Column.Validate (Column.SetReferencesOnDeleteCascade c table column)
  = Column.Validate (Column.SetReferencesText c "") /\
  Spec.rule_f (Column.SetReferences c table column) /\
  Spec.rule_f (Column.SetReferencesOnDeleteCascade c table column).
Proof.
  assert (H1 : forall rest,
             Go.nonEmpty (table +:+ "(" +:+ rest)
             && negb (Go.Contains (table +:+ "(" +:+ rest) "(") = false).
  { intros rest. rewrite Contains_parenthesis. apply andb_false_r. }
  repeat split.
  - destruct c; reflexivity.
  - destruct c; reflexivity.
  - apply Validate_SetReferencesText, H1.
  - apply Validate_SetReferencesText, H1.
  - intros _. apply Contains_iff.
    replace (Column.References (Column.SetReferences c table column))
      with (table +:+ "(" +:+ column +:+ ")") by (destruct c; reflexivity).
    apply Contains_parenthesis.
  - intros _. apply Contains_iff.
    replace (Column.References (Column.SetReferencesOnDeleteCascade c table column))
      with (table +:+ "(" +:+ column +:+ ") ON DELETE CASCADE")
      by (destruct c; reflexivity).
    apply Contains_parenthesis.
Qed.

Lemma Default_SetDefault (c : Column.t) (d : string) :
  Column.Default (Column.SetDefault c d) = d.
Proof. destruct c; reflexivity. Qed.

(** X5. Of the package's eight default constants, NULL, TRUE, FALSE,
    CURRENT_TIMESTAMP, CURRENT_DATE and CURRENT_TIME are written unquoted
    whatever the number parser says; LOCALTIME and LOCALTIMESTAMP are not
    in the allow-list of [ToSQL] (which spells LOCAL_TIME and
    LOCAL_TIMESTAMP) and are written in quotes unless the number parser
    accepts them. A default given to [SetDefault] as a boolean or as nil
    is always written unquoted. *)
Theorem X5_default_quoting (strconv : Strconv) :
  Column.needsQuotes DefaultNull = false /\
  Column.needsQuotes DefaultTrue = false /\
  Column.needsQuotes DefaultFalse = false /\
  Column.needsQuotes DefaultCurrentTimestamp = false /\
  Column.needsQuotes DefaultCurrentDate = false /\
  Column.needsQuotes DefaultCurrentTime = false /\
  Column.needsQuotes DefaultLocalTime = negb (ParseFloat_ok DefaultLocalTime) /\
  Column.needsQuotes DefaultLocalTimestamp
  = negb (ParseFloat_ok DefaultLocalTimestamp) /\
  Column.needsQuotes "LOCAL_TIME" = false /\
  Column.needsQuotes "LOCAL_TIMESTAMP" = false /\
  (forall (c : Column.t) (b : bool),
     Column.needsQuotes
       (Column.Default (Column.SetDefaultAny c (Some (Go.AnyBool b)))) = false) /\
  (forall c : Column.t,
     Column.needsQuotes (Column.Default (Column.SetDefaultAny c None)) = false).
Proof.
  unfold Column.needsQuotes.
  repeat split; cbn;
    try (destruct (ParseFloat_ok _); reflexivity).
  - intros c b. unfold Column.SetDefaultAny. rewrite Default_SetDefault.
    destruct b; cbn; try destruct (ParseFloat_ok _); reflexivity.
  - intros c. unfold Column.SetDefaultAny. rewrite Default_SetDefault.
    cbn. try destruct (ParseFloat_ok _); reflexivity.
Qed.

(** ** AlterTable: the whole of [ToSQL] *)

Lemma serialized_cons_error (sql : string) (err : Go.error)
    (rs : list (string * option Go.error)) :
  Spec.serialized ((sql, Some err) :: rs) = Spec.serialized rs
  /\ Spec.failures ((sql, Some err) :: rs) = err :: Spec.failures rs.
Proof. split; reflexivity. Qed.

Lemma serialized_cons_text (sql : string) (rs : list (string * option Go.error)) :
  Spec.serialized ((sql, None) :: rs) = sql :: Spec.serialized rs
  /\ Spec.failures ((sql, None) :: rs) = Spec.failures rs.
Proof. split; reflexivity. Qed.

(** The loop over the operations adds the texts and the errors in list
    order, skips the failing add operations and panics exactly where a
    contribution does. *)
Lemma operationsLoop_spec `{Strconv} (ords : nat -> Go.MapOrder)
    (ops : list ColumnOperation.t) :
  forall (i : nat) (operationDefs : list string) (errors : list Go.error),
    AlterTable.operationsLoop ords i ops operationDefs errors
    = (rs <- Spec.operationResults ords i ops ;;
       Go.Returns (operationDefs ++ Spec.serialized rs,
                   errors ++ Spec.failures rs)).
Proof.
  induction ops as [|op rest IH]; intros i operationDefs errors.
  - cbn. now rewrite !app_nil_r.
  - cbn [AlterTable.operationsLoop Spec.operationResults].
    unfold Spec.operationResult, Column.ToNewDataType.
    destruct (ColumnOperation.Operation op); cbv zeta.
    + destruct (Column.ToSQL (ords i) (ColumnOperation.Column op))
        as [colSQL [err|]]; rewrite IH; cbn [Go.bind];
        destruct (Spec.operationResults ords (S i) rest) as [rs|];
        cbn [Go.bind]; try reflexivity.
      * destruct (serialized_cons_error "" err rs) as [-> ->].
        now rewrite <- app_assoc.
      * destruct (serialized_cons_text ("ADD COLUMN " +:+ colSQL) rs) as [-> ->].
        now rewrite <- app_assoc.
    + rewrite IH. cbn [Go.bind].
      destruct (Spec.operationResults ords (S i) rest) as [rs|];
        cbn [Go.bind]; [| reflexivity].
      destruct (serialized_cons_text
                  ("DROP COLUMN " +:+ Column.Name (ColumnOperation.Column op)) rs)
        as [-> ->].
      now rewrite <- app_assoc.
    + destruct (Column.UpdateOptions (ColumnOperation.Column op)) as [u|];
        cbn [Go.deref Go.bind]; [| reflexivity].
      rewrite IH.
      destruct (Spec.operationResults ords (S i) rest) as [rs|];
        cbn [Go.bind]; [| reflexivity].
      match goal with
      | |- context [Spec.serialized ((?t, None) :: rs)] =>
          destruct (serialized_cons_text t rs) as [-> ->]
      end.
      now rewrite <- app_assoc.
    + destruct (Column.UpdateOptions (ColumnOperation.Column op)) as [u|];
        cbn [Go.deref Go.bind]; [| reflexivity].
      rewrite IH.
      destruct (Spec.operationResults ords (S i) rest) as [rs|];
        cbn [Go.bind]; [| reflexivity].
      match goal with
      | |- context [Spec.serialized ((?t, None) :: rs)] =>
          destruct (serialized_cons_text t rs) as [-> ->]
      end.
      unfold Spec.alterType, Column.ToDataType.
      now rewrite <- app_assoc.
Qed.

Lemma AlterTable_ToSQL_cases `{Strconv} (ords : nat -> Go.MapOrder) (a : AlterTable.t) :
  AlterTable.ToSQL ords a
  = match AlterTable.Validate a with
    | _ :: _ => Go.Returns ("", AlterTable.Validate a)
    | [] =>
        rs <- Spec.operationResults ords 0 (AlterTable.Operations a) ;;
        Go.Returns
          match Spec.serialized rs with
          | [] => ("", Spec.failures rs
                       ++ ["no valid operations defined for table "
                           +:+ AlterTable.TableName a])
          | _ :: _ => (Spec.alterTable a (Spec.serialized rs), [])
          end
    end.
Proof.
  unfold AlterTable.ToSQL. cbv zeta.
  destruct (AlterTable.Validate a) as [|e es]; [| reflexivity].
  cbn [length Nat.ltb Nat.leb]. rewrite operationsLoop_spec.
  destruct (Spec.operationResults ords 0 (AlterTable.Operations a)) as [rs|];
    cbn [Go.bind app]; [| reflexivity].
  destruct (Spec.serialized rs) as [|d ds]; [reflexivity |].
  cbn [length Nat.eqb]. f_equal. f_equal.
  unfold Spec.alterTable, Spec.opt.
  destruct (Go.nonEmpty (AlterTable.Comment a));
    rewrite ?append_assoc, ?append_nil_r; reflexivity.
Qed.

(** X6. [AlterTable.ToSQL] in full. When [Validate] finds an error (empty
    table name, no operation, or both, in this order) the result is the
    empty text with those errors and no operation is looked at. Otherwise
    the operations contribute in list order; if none contributes a text,
    the result is the empty text with the column errors followed by the
    no-valid-operations error; if at least one does, the result is
    [ALTER TABLE <name> ] with the texts joined by a comma and a space,
    then the optional comment fragment, and a nil error slice, the
    column errors of the failing add operations being dropped. *)
Theorem X6_AlterTable_ToSQL_outcomes
    (strconv : Strconv) (ords : nat -> Go.MapOrder) (a : AlterTable.t) :
  AlterTable.Validate a
  = (if String.eqb (AlterTable.TableName a) ""
     then ["table name cannot be empty"] else [])
    ++ (if (length (AlterTable.Operations a) =? 0)%nat
        then ["alter table must have at least one operation"] else []) /\
  AlterTable.ToSQL ords a
  = match AlterTable.Validate a with
    | _ :: _ => Go.Returns ("", AlterTable.Validate a)
    | [] =>
        rs <- Spec.operationResults ords 0 (AlterTable.Operations a) ;;
        Go.Returns
          match Spec.serialized rs with
          | [] => ("", Spec.failures rs
                       ++ ["no valid operations defined for table "
                           +:+ AlterTable.TableName a])
          | _ :: _ => (Spec.alterTable a (Spec.serialized rs), [])
          end
    end.
Proof.
  split; [| apply AlterTable_ToSQL_cases].
  unfold AlterTable.Validate.
  destruct (String.eqb _ ""), (_ =? _)%nat; reflexivity.
Qed.

(** ** Table: the whole of [ToSQL] *)

Lemma Table_ToSQL_cases `{Strconv} (ords : nat -> Go.MapOrder) (tb : Table.t) :
  Table.ToSQL ords tb
  = if String.eqb (Table.Name tb) "" then ("", ["table name cannot be empty"])
    else
      match Spec.serialized (Spec.columnResults ords 0 (Table.Columns tb)),
            Spec.failures (Spec.columnResults ords 0 (Table.Columns tb)) with
      | [], errs => ("", errs ++ ["no valid columns defined for table "
                                   +:+ Table.Name tb])
      | _ :: _, e :: es => ("", e :: es)
      | defs, [] => (Spec.createTable tb defs, [])
      end.
Proof.
  unfold Table.ToSQL. cbv zeta. destruct (String.eqb _ ""); [reflexivity |].
  rewrite columnsLoop_spec. cbn [app].
  destruct (Spec.serialized _) as [|d ds]; [reflexivity |].
  destruct (Spec.failures _) as [|e es]; [| reflexivity].
  cbn [length Nat.eqb Nat.ltb Nat.leb]. f_equal.
  unfold Spec.createTable, Spec.opt.
  destruct (Go.nonEmpty (Table.Comment tb)); cbn [app Go.Join];
    rewrite ?append_assoc, ?append_nil_r; reflexivity.
Qed.

Lemma failures_nil_iff `{Strconv} (ords : nat -> Go.MapOrder) (cols : list Column.t) :
  forall i : nat,
    Spec.failures (Spec.columnResults ords i cols) = []
    <-> Forall (fun c => Column.Validate c = None) cols.
Proof.
  induction cols as [|c rest IH]; intros i.
  - split; [intros _; constructor | reflexivity].
  - cbn [Spec.columnResults].
    pose proof (ToSQL_error_is_Validate (ords i) c) as Hv.
    destruct (Column.ToSQL (ords i) c) as [sql [err|]]; cbn in Hv.
    + split; [discriminate |]. intros Hall. inversion Hall; congruence.
    + destruct (serialized_cons_text sql (Spec.columnResults ords (S i) rest))
        as [_ ->].
      rewrite IH. split.
      * intros Hall. constructor; [now symmetry | assumption].
      * intros Hall. now inversion Hall.
Qed.

Lemma serialized_all_valid `{Strconv} (ords : nat -> Go.MapOrder) (cols : list Column.t) :
  forall i : nat,
    Forall (fun c => Column.Validate c = None) cols ->
    Spec.serialized (Spec.columnResults ords i cols)
    = map fst (Spec.columnResults ords i cols).
Proof.
  induction cols as [|c rest IH]; intros i Hall; [reflexivity |].
  inversion Hall as [|? ? Hc Hrest]; subst. cbn [Spec.columnResults map].
  pose proof (ToSQL_error_is_Validate (ords i) c) as Hv. rewrite Hc in Hv.
  destruct (Column.ToSQL (ords i) c) as [sql e]; cbn in Hv; subst e.
  destruct (serialized_cons_text sql (Spec.columnResults ords (S i) rest))
    as [-> _].
  cbn [fst]. now rewrite IH.
Qed.

(** X10. [Table.ToSQL] returns no error exactly when the table name is not
    empty, the table has at least one column and every column passes
    [Column.Validate]; the text is then [CREATE TABLE <name> (...)] with the
    text of every column, in list order, and the optional comment
    fragment. [Table.Validate] looks at the name only: it can accept a
    table that [ToSQL] rejects, and when it rejects, [ToSQL] returns the
    same errors. *)
Theorem X10_Table_ToSQL_succeeds_iff
    (strconv : Strconv) (ords : nat -> Go.MapOrder) (tb : Table.t) :
  ((Table.ToSQL ords tb).2 = [] <->
   Table.Name tb <> "" /\ Table.Columns tb <> [] /\
   Forall (fun c => Column.Validate c = None) (Table.Columns tb)) /\
  (Table.Name tb <> "" -> Table.Columns tb <> [] ->
   Forall (fun c => Column.Validate c = None) (Table.Columns tb) ->
   Table.ToSQL ords tb
   = (Spec.createTable tb
        (map fst (Spec.columnResults ords 0 (Table.Columns tb))), [])) /\
  (Table.Validate tb = [] <-> Table.Name tb <> "") /\
  (Table.Name tb = "" -> Table.ToSQL ords tb = ("", Table.Validate tb)).
Proof.
  assert (Hok : Table.Name tb <> "" -> Table.Columns tb <> [] ->
                Forall (fun c => Column.Validate c = None) (Table.Columns tb) ->
                Table.ToSQL ords tb
                = (Spec.createTable tb
                     (map fst (Spec.columnResults ords 0 (Table.Columns tb))), [])).
  { intros Hn Hc Hall. rewrite Table_ToSQL_cases.
    apply String.eqb_neq in Hn. rewrite Hn.
    rewrite (proj2 (failures_nil_iff ords (Table.Columns tb) 0%nat) Hall).
    rewrite serialized_all_valid by assumption.
    destruct (Table.Columns tb) as [|c rest]; [congruence |]. reflexivity. }
  split; [| split; [exact Hok | split]].
  - split.
    + rewrite Table_ToSQL_cases.
      destruct (String.eqb_spec (Table.Name tb) "") as [Hn | Hn]; [discriminate |].
      destruct (Spec.serialized _) as [|d ds] eqn:Hs.
      * intros Herr. cbn in Herr. now apply app_eq_nil in Herr as [_ Herr].
      * destruct (Spec.failures _) as [|e es] eqn:Hf; [| discriminate].
        intros _. split; [exact Hn |].
        split; [intros Hc; rewrite Hc in Hs; discriminate |].
        now apply (failures_nil_iff ords _ 0%nat).
    + intros (Hn & Hc & Hall). now rewrite Hok.
  - unfold Table.Validate.
    destruct (String.eqb_spec (Table.Name tb) "") as [Hn | Hn]; cbn.
    + split; [discriminate | congruence].
    + split; [intros _; exact Hn | reflexivity].
  - intros Hn. unfold Table.Validate. rewrite Table_ToSQL_cases.
    apply String.eqb_eq in Hn. now rewrite Hn.
Qed.

(** X7. The two aggregate [ToSQL] methods also return exactly one of the
    two: a non-empty text with no error, or the empty text with at least
    one error. For AlterTable this holds of every call that returns. *)
Theorem X7_aggregate_ToSQL_text_or_errors
    (strconv : Strconv) (ords : nat -> Go.MapOrder) :
  (forall tb : Table.t,
     (Table.ToSQL ords tb).1 = ""
     <-> exists e es, (Table.ToSQL ords tb).2 = e :: es) /\
  (forall a : AlterTable.t,
     match AlterTable.ToSQL ords a with
     | Go.Returns (sql, errs) => sql = "" <-> exists e es, errs = e :: es
     | Go.Panics => True
     end).
Proof.
  split.
  - intros tb. rewrite Table_ToSQL_cases.
    destruct (String.eqb _ ""); [cbn; split; [now eexists _, _ | reflexivity] |].
    destruct (Spec.serialized _) as [|d ds].
    + cbn [fst snd]. split; [| reflexivity]. intros _.
      destruct (Spec.failures _) as [|e es]; cbn; now eexists _, _.
    + destruct (Spec.failures _) as [|e es]; cbn [fst snd].
      * split; [discriminate | intros (e & es & Herr); discriminate].
      * split; [now eexists _, _ | reflexivity].
  - intros a. rewrite AlterTable_ToSQL_cases.
    destruct (AlterTable.Validate a) as [|e es].
    + destruct (Spec.operationResults ords 0 (AlterTable.Operations a)) as [rs|];
        cbn [Go.bind]; [| exact I].
      destruct (Spec.serialized rs) as [|d ds].
      * split; [| reflexivity]. intros _.
        destruct (Spec.failures rs) as [|e es]; cbn; now eexists _, _.
      * split; [discriminate | intros (e & es & Herr); discriminate].
    + split; [now eexists _, _ | reflexivity].
Qed.

(** ** AlterTable: what the builder methods guarantee *)

Lemma descriptorsPresent_results `{Strconv} (ords : nat -> Go.MapOrder)
    (ops : list ColumnOperation.t) :
  Spec.descriptorsPresent ops ->
  forall i : nat, exists rs, Spec.operationResults ords i ops = Go.Returns rs.
Proof.
  induction 1 as [|op rest Hop Hrest IH]; intros i; [now eexists |].
  cbn [Spec.operationResults]. destruct (IH (S i)) as [rs ->].
  unfold Spec.operationResult.
  destruct (ColumnOperation.Operation op); cbv zeta.
  - destruct (Column.ToSQL _ _) as [sql [err|]]; now eexists.
  - now eexists.
  - destruct Hop as [u ->]. now eexists.
  - destruct Hop as [u ->]. now eexists.
Qed.

Lemma descriptorsPresent_snoc (ops : list ColumnOperation.t) (op : ColumnOperation.t) :
  Spec.descriptorsPresent ops ->
  match ColumnOperation.Operation op with
  | RenameColumnOp | AlterColumnTypeOp =>
      is_Some (Column.UpdateOptions (ColumnOperation.Column op))
  | _ => True
  end ->
  Spec.descriptorsPresent (ops ++ [op]).
Proof.
  intros Hops Hop. apply Forall_app. split; [exact Hops |].
  constructor; [exact Hop | constructor].
Qed.

Lemma step_Returns (a a' : AlterTable.t) (c : AlterTableScript.call) :
  AlterTableScript.step a c = Go.Returns a' ->
  Spec.descriptorsPresent (AlterTable.Operations a) ->
  Spec.descriptorsPresent (AlterTable.Operations a')
  /\ AlterTable.TableName a' = AlterTable.TableName a
  /\ AlterTable.Comment a' = AlterTable.Comment a
  /\ (length (AlterTable.Operations a') <= S (length (AlterTable.Operations a)))%nat
  /\ AlterTableScript.dereferencesNil c = false.
Proof.
  intros Hstep Hops. destruct c as [[col|] | [col|] | [col|]]; cbn in Hstep;
    try (injection Hstep as <-; repeat split; try assumption; cbn; lia).
  - injection Hstep as <-. cbn. rewrite length_app. cbn.
    repeat split; try lia. now apply descriptorsPresent_snoc.
  - injection Hstep as <-. cbn. rewrite length_app. cbn.
    repeat split; try lia. now apply descriptorsPresent_snoc.
  - cbn. destruct (Column.UpdateOptions col) as [u|] eqn:Hu; [| discriminate].
    cbn in Hstep.
    destruct (Go.nonEmpty (ColumnUpdate.Name u));
      [| destruct (Go.nonEmpty (ColumnUpdate.DataType u))];
      injection Hstep as <-; cbn; rewrite ?length_app; cbn;
      repeat split; try lia; try assumption;
      apply descriptorsPresent_snoc; try assumption; cbn; rewrite Hu; now eexists.
Qed.

Lemma step_Panics (a : AlterTable.t) (c : AlterTableScript.call) :
  AlterTableScript.step a c = Go.Panics ->
  AlterTableScript.dereferencesNil c = true.
Proof.
  destruct c as [[col|] | [col|] | [col|]]; cbn; try discriminate.
  destruct (Column.UpdateOptions col) as [u|]; [| reflexivity]. cbn.
  destruct (Go.nonEmpty (ColumnUpdate.Name u));
    [| destruct (Go.nonEmpty (ColumnUpdate.DataType u))]; discriminate.
Qed.

Lemma runFrom_spec (script : list AlterTableScript.call) :
  forall a : AlterTable.t,
    Spec.descriptorsPresent (AlterTable.Operations a) ->
    match AlterTableScript.runFrom a script with
    | Go.Returns a' =>
        existsb AlterTableScript.dereferencesNil script = false
        /\ Spec.descriptorsPresent (AlterTable.Operations a')
        /\ AlterTable.TableName a' = AlterTable.TableName a
        /\ AlterTable.Comment a' = AlterTable.Comment a
        /\ (length (AlterTable.Operations a')
            <= length (AlterTable.Operations a) + length script)%nat
    | Go.Panics => existsb AlterTableScript.dereferencesNil script = true
    end.
Proof.
  induction script as [|c rest IH]; intros a Ha; cbn.
  - repeat split; try assumption; lia.
  - destruct (AlterTableScript.step a c) as [a1|] eqn:Hstep; cbn.
    + destruct (step_Returns a a1 c Hstep Ha) as (H1 & Hn & Hc & Hl & ->).
      specialize (IH a1 H1). cbn.
      destruct (AlterTableScript.runFrom a1 rest) as [a'|]; [| exact IH].
      destruct IH as (He & Hd & Hn' & Hc' & Hl').
      repeat split; try assumption; try congruence; lia.
    + now rewrite (step_Panics a c Hstep).
Qed.

(** X8. Calls of the builder methods [AddColumn], [DropColumn] and
    [AlterColumn], in any number and order on [NewAlterTable], panic
    exactly when some call hands [AlterColumn] a non-nil column without
    update descriptor. When they all return, the table keeps its name,
    holds at most one operation per call, and [ToSQL] on it returns (it
    never panics): every rename or alter-type operation that the builder
    recorded has its descriptor. *)
Theorem X8_AlterTable_builder_never_panics_in_ToSQL
    (strconv : Strconv) (ords : nat -> Go.MapOrder)
    (nm : string) (script : list AlterTableScript.call) :
  (AlterTableScript.run nm script = Go.Panics <->
   existsb AlterTableScript.dereferencesNil script = true) /\
  (forall a : AlterTable.t,
     AlterTableScript.run nm script = Go.Returns a ->
     AlterTable.TableName a = nm /\
     (length (AlterTable.Operations a) <= length script)%nat /\
     Spec.descriptorsPresent (AlterTable.Operations a) /\
     exists r, AlterTable.ToSQL ords a = Go.Returns r).
Proof.
  assert (Hnew : Spec.descriptorsPresent
                   (AlterTable.Operations (AlterTable.NewAlterTable nm)))
    by constructor.
  pose proof (runFrom_spec script (AlterTable.NewAlterTable nm) Hnew) as Hrun.
  fold (AlterTableScript.run nm script) in Hrun.
  destruct (AlterTableScript.run nm script) as [a'|]; split.
  - destruct Hrun as (He & _). rewrite He. split; discriminate.
  - intros a Ha. injection Ha as <-.
    destruct Hrun as (_ & Hd & Hn & _ & Hl). cbn in Hn, Hl.
    repeat split; try assumption.
    rewrite AlterTable_ToSQL_cases.
    destruct (AlterTable.Validate a') as [|e es]; [| now eexists].
    destruct (descriptorsPresent_results ords _ Hd 0%nat) as [rs ->].
    now eexists.
  - split; [intros _; exact Hrun | reflexivity].
  - intros a Ha. discriminate.
Qed.

Lemma UpdateOptions_SetNewName (c : Column.t) (n : string) :
  Column.UpdateOptions (Column.SetNewName c n)
  = Some (ColumnUpdate.mk n
            match Column.UpdateOptions c with
            | Some u => ColumnUpdate.DataType u
            | None => ""
            end).
Proof. destruct c as [? ? ? ? ? ? ? ? ? ? ? ? ? ? ? ? ? ? ? ? ? ? [u|]]; reflexivity. Qed.

Lemma UpdateOptions_SetNewDataType (c : Column.t) (d : DataType) :
  Column.UpdateOptions (Column.SetNewDataType c d)
  = Some (ColumnUpdate.mk
            match Column.UpdateOptions c with
            | Some u => ColumnUpdate.Name u
            | None => ""
            end d).
Proof. destruct c as [? ? ? ? ? ? ? ? ? ? ? ? ? ? ? ? ? ? ? ? ? ? [u|]]; reflexivity. Qed.

(** X9. [SetNewName] and [SetNewDataType] allocate the update descriptor
    on first use, keep each other's field and commute, so [AlterColumn]
    returns on any column that went through either of them. A non-empty
    new name makes the operation a rename even when a new data type is
    set as well (the type change is not recorded); a new data type alone,
    on a column with no new name, makes it an alter-type operation; and
    [SetNewName] with the empty text on a fresh column records nothing. *)
Theorem X9_update_descriptor_setters
    (a : AlterTable.t) (c : Column.t) (n : string) (d : DataType) :
  Column.SetNewName (Column.SetNewDataType c d) n
  = Column.SetNewDataType (Column.SetNewName c n) d /\
  Column.UpdateOptions (Column.SetNewDataType (Column.SetNewName c n) d)
  = Some (ColumnUpdate.mk n d) /\
  (exists a', AlterTable.AlterColumn a (Some (Column.SetNewName c n)) = Go.Returns a') /\
  (exists a', AlterTable.AlterColumn a (Some (Column.SetNewDataType c d))
              = Go.Returns a') /\
  (n <> "" ->
   AlterTable.AlterColumn a (Some (Column.SetNewDataType (Column.SetNewName c n) d))
   = Go.Returns
       (AlterTable.appendOperation a RenameColumnOp
          (Column.SetNewDataType (Column.SetNewName c n) d))) /\
  (d <> "" -> Column.UpdateOptions c = None ->
   AlterTable.AlterColumn a (Some (Column.SetNewDataType c d))
   = Go.Returns
       (AlterTable.appendOperation a AlterColumnTypeOp (Column.SetNewDataType c d))) /\
  (Column.UpdateOptions c = None ->
   AlterTable.AlterColumn a (Some (Column.SetNewName c "")) = Go.Returns a).
Proof.
  assert (Hret : forall col u,
             Column.UpdateOptions col = Some u ->
             exists a', AlterTable.AlterColumn a (Some col) = Go.Returns a').
  { intros col u Hu. unfold AlterTable.AlterColumn. rewrite Hu. cbn.
    destruct (Go.nonEmpty (ColumnUpdate.Name u));
      [| destruct (Go.nonEmpty (ColumnUpdate.DataType u))]; now eexists. }
  repeat split.
  - destruct c as [? ? ? ? ? ? ? ? ? ? ? ? ? ? ? ? ? ? ? ? ? ? [u|]]; reflexivity.
  - destruct c as [? ? ? ? ? ? ? ? ? ? ? ? ? ? ? ? ? ? ? ? ? ? [u|]]; reflexivity.
  - eapply Hret. apply UpdateOptions_SetNewName.
  - eapply Hret. apply UpdateOptions_SetNewDataType.
  - intros Hn. unfold AlterTable.AlterColumn.
    rewrite UpdateOptions_SetNewDataType, UpdateOptions_SetNewName. cbn.
    apply nonEmpty_true in Hn. now rewrite Hn.
  - intros Hd Hu. unfold AlterTable.AlterColumn.
    rewrite UpdateOptions_SetNewDataType, Hu. cbn.
    apply nonEmpty_true in Hd. now rewrite Hd.
  - intros Hu. unfold AlterTable.AlterColumn.
    rewrite UpdateOptions_SetNewName, Hu. reflexivity.
Qed.

(** ** Index: what a script of setter calls builds *)

Lemma step_fields (idx : Index.t) (c : IndexScript.call) :
  Index.name (IndexScript.step idx c) = Index.name idx /\
  Index.columns (IndexScript.step idx c)
  = Index.columns idx ++ IndexScript.scriptColumns [c] /\
  Index.includeColumns (IndexScript.step idx c)
  = Index.includeColumns idx ++ IndexScript.scriptIncludeColumns [c] /\
  Index.withOptions (IndexScript.step idx c)
  = Index.withOptions idx ++ IndexScript.scriptWithOptions [c] /\
  Index.table (IndexScript.step idx c)
  = match c with
    | IndexScript.OnTable tbl => tbl
    | _ => Index.table idx
    end.
Proof. destruct idx, c; cbn; rewrite ?app_nil_r; repeat split; reflexivity. Qed.

Lemma fold_step_fields (script : list IndexScript.call) :
  forall idx : Index.t,
    Index.name (fold_left IndexScript.step script idx) = Index.name idx /\
    Index.columns (fold_left IndexScript.step script idx)
    = Index.columns idx ++ IndexScript.scriptColumns script /\
    Index.includeColumns (fold_left IndexScript.step script idx)
    = Index.includeColumns idx ++ IndexScript.scriptIncludeColumns script /\
    Index.withOptions (fold_left IndexScript.step script idx)
    = Index.withOptions idx ++ IndexScript.scriptWithOptions script.
Proof.
  induction script as [|c script IH]; intros idx.
  - cbn. now rewrite !app_nil_r.
  - cbn [fold_left]. destruct (IH (IndexScript.step idx c)) as (Hn & Hc & Hi & Hw).
    destruct (step_fields idx c) as (Hn1 & Hc1 & Hi1 & Hw1 & _).
    rewrite Hn, Hc, Hi, Hw, Hn1, Hc1, Hi1, Hw1.
    unfold IndexScript.scriptColumns, IndexScript.scriptIncludeColumns,
      IndexScript.scriptWithOptions.
    cbn [flat_map]. rewrite !app_nil_r, <- !app_assoc. repeat split; reflexivity.
Qed.

Lemma fold_step_table (script : list IndexScript.call) :
  forall (idx : Index.t) (acc : option string),
    Index.table idx = default "" acc ->
    Index.table (fold_left IndexScript.step script idx)
    = default ""
        (fold_left
           (fun acc c =>
              match c with
              | IndexScript.OnTable tbl => Some tbl
              | _ => acc
              end) script acc).
Proof.
  induction script as [|c script IH]; intros idx acc Hacc; cbn; [exact Hacc |].
  apply IH. destruct (step_fields idx c) as (_ & _ & _ & _ & ->).
  destruct c; try exact Hacc. reflexivity.
Qed.

Lemma MultiColumnIndex_fold (cols : list string) :
  forall idx : Index.t,
    Index.MultiColumnIndex idx cols = fold_left Index.AddColumn cols idx.
Proof.
  induction cols as [|c cols IH]; intros idx; cbn [fold_left].
  - destruct idx; cbn. now rewrite app_nil_r.
  - rewrite <- IH. destruct idx; cbn. now rewrite <- app_assoc.
Qed.

(** X12. The setters of Index accumulate in call order: the column list of
    a built index is the concatenation of the arguments of its
    [AddColumn], [ExpressionIndex] and [MultiColumnIndex] calls, the
    INCLUDE list and the WITH list likewise collect the [AddIncludeColumn]
    and [AddWithOption] arguments, the name is the constructor's and the
    table is the argument of the last [OnTable] call.
    [MultiColumnIndex] equals one [AddColumn] call per column,
    [ExpressionIndex] equals [AddColumn] and [PartialIndex] equals
    [SetWhere]. *)
Theorem X12_Index_setters_accumulate_in_order
    (nm : string) (script : list IndexScript.call) :
  Index.name (IndexScript.run nm script) = nm /\
  Index.columns (IndexScript.run nm script) = IndexScript.scriptColumns script /\
  Index.includeColumns (IndexScript.run nm script)
  = IndexScript.scriptIncludeColumns script /\
  Index.withOptions (IndexScript.run nm script)
  = IndexScript.scriptWithOptions script /\
  Index.table (IndexScript.run nm script)
  = default "" (IndexScript.lastTable script) /\
  (forall (idx : Index.t) (cols : list string),
     Index.MultiColumnIndex idx cols = fold_left Index.AddColumn cols idx) /\
  (forall (idx : Index.t) (expression : string),
     Index.ExpressionIndex idx expression = Index.AddColumn idx expression) /\
  (forall (idx : Index.t) (condition : string),
     Index.PartialIndex idx condition = Index.SetWhere idx condition).
Proof.
  unfold IndexScript.run.
  destruct (fold_step_fields script (Index.NewIndex nm)) as (Hn & Hc & Hi & Hw).
  repeat split; try assumption.
  - unfold IndexScript.lastTable. now apply fold_step_table.
  - intros idx cols. apply MultiColumnIndex_fold.
Qed.

(** X11. [ToSQL] on an index built by [NewIndex] and setter calls fails
    exactly when the name is empty, or no [OnTable] call gave a non-empty
    table, or no call added a column, and reports the first of these three
    in that order; otherwise it returns the CREATE INDEX statement,
    without error. *)
Theorem X11_Index_script_ToSQL
    (nm : string) (script : list IndexScript.call) :
  Index.ToSQL (IndexScript.run nm script)
  = if String.eqb nm "" then ("", Some "index name is required")
    else if String.eqb (default "" (IndexScript.lastTable script)) "" then
      ("", Some "table name is required")
    else
      match IndexScript.scriptColumns script with
      | [] => ("", Some "at least one column is required for an index")
      | _ :: _ =>
          (Spec.createIndex (Spec.usingClause (IndexScript.lastMethod script))
             (IndexScript.run nm script), None)
      end.
Proof.
  rewrite Index_ToSQL_cases. unfold IndexScript.run.
  destruct (fold_step_fields script (Index.NewIndex nm)) as (-> & -> & _ & _).
  rewrite (fold_step_table script (Index.NewIndex nm) None eq_refl).
  rewrite (fold_step_method script (Index.NewIndex nm) None eq_refl).
  fold (IndexScript.lastTable script). fold (IndexScript.lastMethod script).
  cbn [Index.name Index.columns Index.NewIndex app].
  destruct (String.eqb nm ""); [reflexivity |].
  destruct (String.eqb _ ""); [reflexivity |].
  destruct (IndexScript.scriptColumns script) as [|c0 cs]; [reflexivity |].
  cbn [length Nat.eqb].
  destruct (IndexScript.lastMethod script) as [mth|]; reflexivity.
Qed.

(** ** DropIndex: the last behaviour call wins *)

Lemma DropIndex_fold_fields (script : list DropIndexScript.call) :
  forall (di : DropIndex.t) (acc : option bool),
    DropIndex.cascade di = match acc with Some true => true | _ => false end ->
    DropIndex.restrict di = match acc with Some false => true | _ => false end ->
    let r := fold_left DropIndexScript.step script di in
    let last :=
      fold_left (fun acc c => match c with
                              | DropIndexScript.SetCascade => Some true
                              | DropIndexScript.SetRestrict => Some false
                              | _ => acc
                              end) script acc in
    DropIndex.name r = DropIndex.name di /\
    DropIndex.cascade r = match last with Some true => true | _ => false end /\
    DropIndex.restrict r = match last with Some false => true | _ => false end /\
    DropIndex.ifExists r
    = DropIndex.ifExists di || existsb DropIndexScript.isSetIfExists script /\
    DropIndex.concurrently r
    = DropIndex.concurrently di || existsb DropIndexScript.isSetConcurrently script.
Proof.
  induction script as [|c script IH]; intros di acc Hc Hr; cbn zeta.
  - cbn. rewrite !orb_false_r. repeat split; assumption.
  - cbn [fold_left existsb].
    destruct c; cbn [DropIndexScript.step DropIndexScript.isSetIfExists
                     DropIndexScript.isSetConcurrently];
      [destruct (IH (DropIndex.SetIfExists di) acc Hc Hr) as (H1 & H2 & H3 & H4 & H5)
      |destruct (IH (DropIndex.SetConcurrently di) acc Hc Hr)
         as (H1 & H2 & H3 & H4 & H5)
      |destruct (IH (DropIndex.SetCascade di) (Some true) eq_refl eq_refl)
         as (H1 & H2 & H3 & H4 & H5)
      |destruct (IH (DropIndex.SetRestrict di) (Some false) eq_refl eq_refl)
         as (H1 & H2 & H3 & H4 & H5)
      |destruct (IH (DropIndex.SetSchema di sch) acc Hc Hr)
         as (H1 & H2 & H3 & H4 & H5)];
      rewrite H1, H2, H3, H4, H5; cbn; repeat split; try reflexivity;
      destruct (DropIndex.ifExists di), (DropIndex.concurrently di); reflexivity.
Qed.

(** X13. On a DropIndex built by [NewDropIndex] and setter calls, the
    trailing word is decided by the last [SetCascade] or [SetRestrict]
    call alone: CASCADE after a last [SetCascade], RESTRICT after a last
    [SetRestrict], nothing when neither was called; CONCURRENTLY and IF
    EXISTS are present exactly when their setter was called at least
    once, and with a non-empty name [ToSQL] returns the statement made of
    these parts. *)
Theorem X13_DropIndex_last_behaviour_wins
    (nm : string) (script : list DropIndexScript.call) :
  DropIndex.name (DropIndexScript.run nm script) = nm /\
  DropIndex.ifExists (DropIndexScript.run nm script)
  = existsb DropIndexScript.isSetIfExists script /\
  DropIndex.concurrently (DropIndexScript.run nm script)
  = existsb DropIndexScript.isSetConcurrently script /\
  DropIndex.cascade (DropIndexScript.run nm script)
  = match DropIndexScript.lastBehaviour script with
    | Some true => true
    | _ => false
    end /\
  DropIndex.restrict (DropIndexScript.run nm script)
  = match DropIndexScript.lastBehaviour script with
    | Some false => true
    | _ => false
    end /\
  (nm <> "" ->
   DropIndex.ToSQL (DropIndexScript.run nm script)
   = ("DROP INDEX "
      +:+ Spec.opt (existsb DropIndexScript.isSetConcurrently script) "CONCURRENTLY "
      +:+ Spec.opt (existsb DropIndexScript.isSetIfExists script) "IF EXISTS "
      +:+ Spec.qualified (DropIndex.schema (DropIndexScript.run nm script)) nm
      +:+ match DropIndexScript.lastBehaviour script with
          | Some true => " CASCADE"
          | Some false => " RESTRICT"
          | None => ""
          end,
      None)).
Proof.
  pose proof (DropIndex_fold_fields script (DropIndex.NewDropIndex nm) None
                eq_refl eq_refl) as H.
  cbv zeta in H. fold (DropIndexScript.run nm script) in H.
  fold (DropIndexScript.lastBehaviour script) in H.
  destruct H as (H1 & H2 & H3 & H4 & H5). cbn in H1, H4, H5.
  repeat split; try assumption.
  intros Hn. rewrite DropIndex_ToSQL_text by (rewrite H1; exact Hn).
  rewrite H1, H2, H3, H4, H5.
  destruct (DropIndexScript.lastBehaviour script) as [[|]|]; reflexivity.
Qed.

(** ** DropTable, RenameIndex and ReindexOperation *)

(** X14. [DropTable.ToSQL] fails exactly on an empty name; otherwise the
    statement always carries IF EXISTS, and CASCADE is present exactly
    when the last [SetCascade] call passed [true] (a later call with
    [false] removes it). *)
Theorem X14_DropTable_ToSQL (nm : string) (first last : bool) :
  DropTable.ToSQL (DropTable.NewDropTable nm)
  = (if String.eqb nm "" then ("", Some "table name cannot be empty")
     else ("DROP TABLE IF EXISTS " +:+ nm, None)) /\
  DropTable.SetCascade (DropTable.SetCascade (DropTable.NewDropTable nm) first) last
  = DropTable.SetCascade (DropTable.NewDropTable nm) last /\
  DropTable.ToSQL (DropTable.SetCascade (DropTable.NewDropTable nm) last)
  = (if String.eqb nm "" then ("", Some "table name cannot be empty")
     else ("DROP TABLE IF EXISTS " +:+ nm +:+ Spec.opt last " CASCADE", None)).
Proof.
  split; [| split; [reflexivity |]].
  - rewrite DropTable_ToSQL_cases. cbn.
    destruct (String.eqb nm ""); [reflexivity |]. now rewrite append_nil_r.
  - now rewrite DropTable_ToSQL_cases.
Qed.

(** X15. [RenameIndex.ToSQL] fails exactly when the old or the new name is
    empty; otherwise it returns [ALTER INDEX [<schema>.]<old> RENAME TO
    <new>]: the schema qualifies the old name only. *)
Theorem X15_RenameIndex_ToSQL (ri : RenameIndex.t) :
  ((exists err, (RenameIndex.ToSQL ri).2 = Some err) <->
   RenameIndex.oldName ri = "" \/ RenameIndex.newName ri = "") /\
  (RenameIndex.oldName ri <> "" -> RenameIndex.newName ri <> "" ->
   RenameIndex.ToSQL ri
   = ("ALTER INDEX "
      +:+ Spec.qualified (RenameIndex.schema ri) (RenameIndex.oldName ri)
      +:+ " RENAME TO " +:+ RenameIndex.newName ri, None)) /\
  (forall old new sch : string,
     RenameIndex.ToSQL (RenameIndex.SetSchema (RenameIndex.NewRenameIndex old new) sch)
     = RenameIndex.ToSQL (RenameIndex.mk old new sch)).
Proof.
  rewrite RenameIndex_ToSQL_cases.
  destruct (String.eqb_spec (RenameIndex.oldName ri) "") as [Ho | Ho];
    destruct (String.eqb_spec (RenameIndex.newName ri) "") as [Hn | Hn];
    cbn [orb fst snd]; repeat split;
    try (intros _; now eexists); try tauto; try reflexivity;
    try (intros [err Herr]; discriminate).
Qed.

(** X16. [ReindexOperation.ToSQL] fails exactly when the target is empty,
    or when the name is empty and the stored target is neither SYSTEM nor
    DATABASE; otherwise it returns [REINDEX [CONCURRENTLY] <target>],
    followed by a space and the name when the name is not empty. *)
Theorem X16_ReindexOperation_ToSQL (ro : ReindexOperation.t) :
  ((exists err, (ReindexOperation.ToSQL ro).2 = Some err) <->
   ReindexOperation.target ro = "" \/
   (ReindexOperation.name ro = "" /\ ReindexOperation.target ro <> "SYSTEM"
    /\ ReindexOperation.target ro <> "DATABASE")) /\
  (ReindexOperation.target ro = "SYSTEM" \/ ReindexOperation.target ro = "DATABASE" ->
   ReindexOperation.name ro = "" ->
   ReindexOperation.ToSQL ro
   = ("REINDEX " +:+ Spec.opt (ReindexOperation.concurrently ro) "CONCURRENTLY "
      +:+ ReindexOperation.target ro, None)) /\
  (ReindexOperation.target ro <> "" -> ReindexOperation.name ro <> "" ->
   ReindexOperation.ToSQL ro
   = ("REINDEX " +:+ Spec.opt (ReindexOperation.concurrently ro) "CONCURRENTLY "
      +:+ ReindexOperation.target ro +:+ " " +:+ ReindexOperation.name ro, None)).
Proof.
  rewrite ReindexOperation_ToSQL_cases.
  destruct (String.eqb_spec (ReindexOperation.target ro) "") as [Ht | Ht];
    [| destruct (String.eqb_spec (ReindexOperation.name ro) "") as [Hn | Hn];
       [destruct (String.eqb_spec (ReindexOperation.target ro) "SYSTEM") as [Hs | Hs];
        [| destruct (String.eqb_spec (ReindexOperation.target ro) "DATABASE")
             as [Hd | Hd]] |]];
    cbn [andb negb fst snd].
  - split; [split; [intros _; now left | intros _; now eexists] |].
    split; [intros [H | H] _; rewrite Ht in H; discriminate | intros H; contradiction].
  - split; [split; [intros [err Herr]; discriminate
                   | intros [H | (_ & H & _)]; contradiction] |].
    split; [| intros _ H; contradiction].
    intros _ _. rewrite Hn. cbn. now rewrite append_nil_r.
  - split; [split; [intros [err Herr]; discriminate
                   | intros [H | (_ & _ & H)]; contradiction] |].
    split; [| intros _ H; contradiction].
    intros _ _. rewrite Hn. cbn. now rewrite append_nil_r.
  - split; [split; [intros _; right; now repeat split | intros _; now eexists] |].
    split; [intros [H | H]; contradiction | intros _ H; contradiction].
  - split; [split; [intros [err Herr]; discriminate
                   | intros [H | (H & _)]; contradiction] |].
    split; [intros _ H; contradiction |].
    intros _ _. apply nonEmpty_true in Hn. rewrite Hn. reflexivity.
Qed.

(** ** An instance of the clause-order theorem *)

Lemma X1_rich_column_instance :
  Column.Validate richColumn = None /\
  @Column.ToSQL exampleStrconv forwardOrder richColumn
  = ("code VARCHAR(12) PRIMARY KEY AUTOINCREMENT START WITH 100 PREFIX 'INV' "
     +:+ "UNIQUE DEFAULT 'none' CHECK (length(code) > 3) "
     +:+ "REFERENCES catalog(code) COMMENT 'Catalog code'", None).
Proof.
  assert (Hv : Column.Validate richColumn = None) by (vm_compute; reflexivity).
  split; [exact Hv |].
  destruct (X1_Column_ToSQL_clause_order exampleStrconv forwardOrder richColumn Hv)
    as [Hsql _].
  rewrite Hsql. vm_compute. reflexivity.
Defined.

(** ** Column: what validation rules out of the emitted text *)



